(** * Evaly product analyzer: analysis engine and Shopify connector

    A shallow embedding of [app.py] (the [EvalyEngine] class, [analyze_product]
    and the handler of the start button) and of [shopify_connector.py] (the
    [ShopifyConnector] class and [test_connection]), followed by the
    properties of the specification that concern them.

    Python strings are modelled as [string]; the patterns the code searches
    for are ASCII, so searching bytes of a UTF-8 text finds exactly the
    occurrences that searching code points finds. *)

From Stdlib Require Import ZArith Ascii PrimFloat.
From stdpp Require Import gmap strings list fin_maps pretty.

Local Open Scope string_scope.

(** ** Python values, exceptions and results *)

(** The scalar values that flow through both files. *)
Inductive pyval : Type :=
  | PyNone
  | PyBool (b : bool)
  | PyInt (z : Z)
  | PyFloat (f : float)
  | PyStr (s : string).

(** An instance of a subclass of [Exception]: the name of its class and the
    text [str(e)] gives. *)
Record PyException : Type := mkExc { exc_type : string; exc_str : string }.

(** The outcome of an expression that may raise. *)
Inductive result (A : Type) : Type :=
  | Ok (a : A)
  | Raise (e : PyException).
Arguments Ok {A} a.
Arguments Raise {A} e.

Definition rbind {A B : Type} (r : result A) (k : A -> result B) : result B :=
  match r with
  | Ok a => k a
  | Raise e => Raise e
  end.

(** Python truthiness, as [if x] and [x and y] use it. *)
Definition truthy (v : pyval) : bool :=
  match v with
  | PyNone => false
  | PyBool b => b
  | PyInt z => negb (z =? 0)%Z
  | PyFloat f => negb (PrimFloat.eqb f 0%float)
  | PyStr s => negb (String.eqb s "")
  end.

(** ** The string methods the connector uses *)

Module PyStr.

(** [s.startswith(pre)]. *)
Fixpoint startswith (s pre : string) {struct pre} : bool :=
  match pre, s with
  | EmptyString, _ => true
  | String a pre', String b s' => Ascii.eqb a b && startswith s' pre'
  | String _ _, EmptyString => false
  end.

(** [sub in s]: some position of [s] starts with [sub]. *)
Fixpoint contains (sub s : string) : bool :=
  startswith s sub ||
  match s with
  | EmptyString => false
  | String _ s' => contains sub s'
  end.

(** [s.endswith(suf)]: some tail of [s] is [suf]. *)
Fixpoint endswith (s suf : string) : bool :=
  String.eqb s suf ||
  match s with
  | EmptyString => false
  | String _ s' => endswith s' suf
  end.

(** The scan of [s.replace(old, new)] for a non-empty [old]: left to right,
    occurrences do not overlap. [skip] counts the characters of the current
    occurrence that are still to be dropped. *)
Fixpoint replace_scan (old new : string) (skip : nat) (s : string) : string :=
  match s with
  | EmptyString => EmptyString
  | String c s' =>
      match skip with
      | S k => replace_scan old new k s'
      | O =>
          if startswith s old
          then new +:+ replace_scan old new (String.length old - 1) s'
          else String c (replace_scan old new 0 s')
      end
  end.

(** With an empty [old], Python puts [new] before every character and at
    the end. *)
Fixpoint replace_empty (new s : string) : string :=
  match s with
  | EmptyString => new
  | String c s' => new +:+ String c (replace_empty new s')
  end.

(** [s.replace(old, new)]. *)
Definition replace (s old new : string) : string :=
  match old with
  | EmptyString => replace_empty new s
  | String _ _ => replace_scan old new 0 s
  end.

End PyStr.

(** ** [shopify_connector.py]: the constructor *)

(** The session object of the Shopify SDK: what [shopify.Session] was
    called with. *)
Record Session : Type := mkSession {
  session_shop_url : string;
  session_version : string;
  session_token : string
}.

Record ShopifyConnector : Type := mkConnector {
  shop_url : string;
  access_token : string;
  api_version : string;
  session : option Session
}.

(** Line 25: [shop_url.replace('https://', '').replace('http://', '')]. *)
Definition strip_schemes (shop_url : string) : string :=
  PyStr.replace (PyStr.replace shop_url "https://" "") "http://" "".

(** Lines 25 to 28: the value stored in [self.shop_url]. *)
Definition normalize_shop_url (shop_url : string) : string :=
  let u := strip_schemes shop_url in
  if negb (PyStr.endswith u ".myshopify.com") then
    if negb (PyStr.contains "." u) then u +:+ ".myshopify.com" else u
  else u.

(** [ShopifyConnector.__init__]. *)
Definition ShopifyConnector_init (shop_url access_token : string)
  : ShopifyConnector :=
  {| shop_url := normalize_shop_url shop_url;
     access_token := access_token;
     api_version := "2024-01";
     session := None |}.

(** ** Built-in conversions

    [float(x)] and [str(x)] on floating-point values are primitives of the
    interpreter; the development is parametric in them. *)
Class PyBuiltins : Type := {
  (** [float(s)] for a string: [None] when Python raises [ValueError]. *)
  float_of_str : string -> option float;
  (** [float(n)] for an integer: [None] when Python raises [OverflowError]. *)
  float_of_int : Z -> option float;
  (** [str(f)] for a float. *)
  str_of_float : float -> string
}.

Global Instance result_ret : MRet result := fun _ a => Ok a.
Global Instance result_bind : MBind result := fun _ _ k r => rbind r k.
Global Instance result_fmap : FMap result :=
  fun _ _ f r => rbind r (fun a => Ok (f a)).

Section Builtins.
Context {builtins : PyBuiltins}.

(** [float(v)]. *)
Definition py_float (v : pyval) : result float :=
  match v with
  | PyFloat f => Ok f
  | PyBool b => Ok (if b then 1%float else 0%float)
  | PyInt z =>
      match float_of_int z with
      | Some f => Ok f
      | None => Raise (mkExc "OverflowError" "int too large to convert to float")
      end
  | PyStr s =>
      match float_of_str s with
      | Some f => Ok f
      | None =>
          Raise (mkExc "ValueError" ("could not convert string to float: " +:+ s))
      end
  | PyNone =>
      Raise (mkExc "TypeError"
        "float() argument must be a string or a real number, not 'NoneType'")
  end.

(** [str(v)], also what an f-string puts for [{v}]. *)
Definition py_str (v : pyval) : string :=
  match v with
  | PyNone => "None"
  | PyBool true => "True"
  | PyBool false => "False"
  | PyInt z => pretty z
  | PyFloat f => str_of_float f
  | PyStr s => s
  end.

End Builtins.

(** ** The objects of the Shopify SDK *)

Module Variant.
Record t : Type := mk {
  price : pyval;
  compare_at_price : pyval;
  sku : pyval;
  inventory_quantity : pyval
}.
End Variant.

Module Image.
Record t : Type := mk { src : pyval }.
End Image.

Module Product.
Record t : Type := mk {
  id : pyval;
  title : pyval;
  variants : list Variant.t;
  product_type : pyval;
  vendor : pyval;
  tags : pyval;
  status : pyval;
  created_at : pyval;
  images : list Image.t;
  handle : pyval
}.
End Product.

Module Shop.
Record t : Type := mk {
  name : pyval;
  email : pyval;
  domain : pyval;
  currency : pyval;
  timezone : pyval;
  plan_name : pyval
}.
End Shop.

(** The calls the connector makes into the SDK. Each one may change the
    state of the SDK and of the remote store ([world]) and may raise. *)
Class ShopifySDK (world : Type) : Type := {
  (** [shopify.Session(shop_url, version, token)] *)
  Session_new : string -> string -> string -> world -> result Session * world;
  (** [shopify.ShopifyResource.activate_session(session)] *)
  activate_session : Session -> world -> result unit * world;
  (** [shopify.ShopifyResource.clear_session()] *)
  clear_session : world -> result unit * world;
  (** [shopify.Shop.current()] *)
  Shop_current : world -> result Shop.t * world;
  (** [shopify.Product.find(limit=limit)] *)
  Product_find_limit : Z -> world -> result (list Product.t) * world;
  (** [shopify.Product.find(product_id)] *)
  Product_find_id : Z -> world -> result Product.t * world;
  (** [shopify.Product.find(title=query, limit=limit)] *)
  Product_find_title : string -> Z -> world -> result (list Product.t) * world
}.

(** ** Dictionaries

    A Python dictionary with string keys is a finite map. *)

(** [if shop_info:] on the optional dictionary. *)
Definition dict_truthy (d : option (gmap string pyval)) : bool :=
  match d with
  | Some m => negb (bool_decide (m = ∅))
  | None => false
  end.

(** [d[key]] *)
Definition getitem (d : gmap string pyval) (key : string) : result pyval :=
  match d !! key with
  | Some v => Ok v
  | None => Raise (mkExc "KeyError" key)
  end.

(** ** Effects of the connector

    A method runs against the connector object, the SDK and the store
    behind it, and the standard output. State changes made before an
    exception is raised persist, as they do in Python. *)

Section Connector.
Context {world : Type} {SDK : ShopifySDK world} {builtins : PyBuiltins}.

Record state : Type := mkState {
  self : ShopifyConnector;
  sdk : world;
  stdout : list string
}.

Definition M (A : Type) : Type := state -> result A * state.

Definition ret {A : Type} (a : A) : M A := fun st => (Ok a, st).

Definition bind {A B : Type} (m : M A) (k : A -> M B) : M B :=
  fun st =>
    match m st with
    | (Ok a, st') => k a st'
    | (Raise e, st') => (Raise e, st')
    end.

Global Instance M_ret : MRet M := @ret.
Global Instance M_bind : MBind M := fun _ _ k m => bind m k.

(** [try: body except Exception as e: handler(e)] *)
Definition try_except {A : Type} (body : M A) (handler : PyException -> M A)
  : M A :=
  fun st =>
    match body st with
    | (Ok a, st') => (Ok a, st')
    | (Raise e, st') => handler e st'
    end.

(** A pure expression that may raise. *)
Definition lift {A : Type} (r : result A) : M A := fun st => (r, st).

(** A call into the SDK. *)
Definition call {A : Type} (f : world -> result A * world) : M A :=
  fun st =>
    let '(r, w) := f (sdk st) in
    (r, mkState (self st) w (stdout st)).

Definition get_self : M ShopifyConnector := fun st => (Ok (self st), st).

(** [self.session = s] *)
Definition set_session (s : option Session) : M unit :=
  fun st =>
    let c := self st in
    (Ok tt,
     mkState (mkConnector (shop_url c) (access_token c) (api_version c) s)
             (sdk st) (stdout st)).

(** [print(line)] *)
Definition print (line : string) : M unit :=
  fun st => (Ok tt, mkState (self st) (sdk st) (stdout st ++ [line])).

(** ** [ShopifyConnector.connect] *)
Definition connect : M bool :=
  try_except
    (c ← get_self;
     s ← call (Session_new (shop_url c) (api_version c) (access_token c));
     set_session (Some s);;
     call (activate_session s);;
     shop ← call Shop_current;
     mret true)
    (fun e =>
       print ("Connection error: " +:+ exc_str e);;
       mret false).

(** ** The dictionary built for one product

    [variant = product.variants[0] if product.variants else None] *)
Definition first_variant (product : Product.t) : option Variant.t :=
  match Product.variants product with
  | v :: _ => Some v
  | [] => None
  end.

(** [float(variant.price) if variant else 0.0] *)
Definition price_of (variant : option Variant.t) : result float :=
  match variant with
  | Some v => py_float (Variant.price v)
  | None => Ok 0%float
  end.

(** [float(variant.compare_at_price)
     if variant and variant.compare_at_price else None] *)
Definition compare_at_price_of (variant : option Variant.t) : result pyval :=
  match variant with
  | Some v =>
      if truthy (Variant.compare_at_price v)
      then PyFloat <$> py_float (Variant.compare_at_price v)
      else Ok PyNone
  | None => Ok PyNone
  end.

(** The dictionary literal of [get_products] and [get_product_by_id]; its
    entries are evaluated in the order they are written. *)
Definition product_data (shop_url : string) (product : Product.t)
  : result (gmap string pyval) :=
  let variant := first_variant product in
  price ← price_of variant;
  compare_at_price ← compare_at_price_of variant;
  mret (<["id" := Product.id product]>
       (<["name" := Product.title product]>
       (<["price" := PyFloat price]>
       (<["compare_at_price" := compare_at_price]>
       (<["sku" := match variant with
                   | Some v => Variant.sku v
                   | None => PyStr ""
                   end]>
       (<["inventory_quantity" :=
            match variant with
            | Some v => Variant.inventory_quantity v
            | None => PyInt 0
            end]>
       (<["product_type" := Product.product_type product]>
       (<["vendor" := Product.vendor product]>
       (<["tags" := Product.tags product]>
       (<["status" := Product.status product]>
       (<["created_at" := PyStr (py_str (Product.created_at product))]>
       (<["image_url" := match Product.images product with
                         | img :: _ => Image.src img
                         | [] => PyNone
                         end]>
       (<["variants_count" :=
            PyInt (Z.of_nat (length (Product.variants product)))]>
       (<["handle" := Product.handle product]>
       (<["url" := PyStr ("https://" +:+ shop_url +:+ "/products/"
                          +:+ py_str (Product.handle product))]>
       (∅ : gmap string pyval)))))))))))))))).

(** The shorter dictionary of [search_products]. *)
Definition search_data (product : Product.t) : result (gmap string pyval) :=
  let variant := first_variant product in
  price ← price_of variant;
  mret (<["id" := Product.id product]>
       (<["name" := Product.title product]>
       (<["price" := PyFloat price]>
       (<["sku" := match variant with
                   | Some v => Variant.sku v
                   | None => PyStr ""
                   end]>
       (<["vendor" := Product.vendor product]>
       (<["status" := Product.status product]>
       (∅ : gmap string pyval))))))).

(** The loop [for product in ...: acc.append(f(product))]. *)
Fixpoint for_each (f : Product.t -> result (gmap string pyval))
    (ps : list Product.t) : result (list (gmap string pyval)) :=
  match ps with
  | [] => Ok []
  | p :: ps' =>
      d ← f p;
      ds ← for_each f ps';
      mret (d :: ds)
  end.

(** ** [ShopifyConnector.get_products] *)
Definition get_products (limit : Z) : M (list (gmap string pyval)) :=
  try_except
    (shopify_products ← call (Product_find_limit limit);
     c ← get_self;
     lift (for_each (product_data (shop_url c)) shopify_products))
    (fun e =>
       print ("Error fetching products: " +:+ exc_str e);;
       mret []).

(** ** [ShopifyConnector.get_product_by_id] *)
Definition get_product_by_id (product_id : Z) : M (option (gmap string pyval)) :=
  try_except
    (product ← call (Product_find_id product_id);
     c ← get_self;
     d ← lift (product_data (shop_url c) product);
     mret (Some d))
    (fun e =>
       print ("Error fetching product: " +:+ exc_str e);;
       mret None).

(** ** [ShopifyConnector.search_products] *)
Definition search_products (query : string) (limit : Z)
  : M (list (gmap string pyval)) :=
  try_except
    (products ← call (Product_find_title query limit);
     lift (for_each search_data products))
    (fun e =>
       print ("Error searching products: " +:+ exc_str e);;
       mret []).

(** ** [ShopifyConnector.get_shop_info] *)
Definition get_shop_info : M (option (gmap string pyval)) :=
  try_except
    (shop ← call Shop_current;
     mret (Some (<["name" := Shop.name shop]>
                (<["email" := Shop.email shop]>
                (<["domain" := Shop.domain shop]>
                (<["currency" := Shop.currency shop]>
                (<["timezone" := Shop.timezone shop]>
                (<["plan_name" := Shop.plan_name shop]>
                (∅ : gmap string pyval)))))))))
    (fun e =>
       print ("Error fetching shop info: " +:+ exc_str e);;
       mret None).

(** ** [ShopifyConnector.disconnect] *)
Definition disconnect : M unit :=
  c ← get_self;
  match session c with
  | Some _ =>
      call clear_session;;
      set_session None
  | None => mret tt
  end.

(** ** [test_connection]

    The connector is a fresh local object: the function starts from the
    SDK state and the output it is called in. *)
Definition test_connection (shop_url access_token : string)
    (w : world) (out : list string) : result (bool * string) * state :=
  try_except
    (connected ← connect;
     if (connected : bool) then
       shop_info ← get_shop_info;
       disconnect;;
       if dict_truthy shop_info then
         match shop_info with
         | Some d =>
             name ← lift (getitem d "name");
             mret (true, "✅ Connected to " +:+ py_str name)
         | None => mret (true, "✅ Connection successful")
         end
       else mret (true, "✅ Connection successful")
     else mret (false, "❌ Failed to connect. Check your credentials."))
    (fun e => mret (false, "❌ Connection error: " +:+ exc_str e))
    (mkState (ShopifyConnector_init shop_url access_token) w out).

End Connector.

(** ** JSON values, as [json.loads] gives them *)

#[warnings="-register-all"] Inductive json : Type :=
  | JNull
  | JBool (b : bool)
  | JInt (z : Z)
  | JFloat (f : float)
  | JString (s : string)
  | JArray (l : list json)
  | JObject (o : gmap string json).

(** [key in v] for a string [key]: membership among the keys of a
    dictionary, among the elements of a list, as a substring of a string;
    the other values are not containers. *)
Definition py_in (key : string) (v : json) : result bool :=
  match v with
  | JObject o => Ok (bool_decide (is_Some (o !! key)))
  | JArray l =>
      Ok (existsb (fun x => match x with
                            | JString s => String.eqb s key
                            | _ => false
                            end) l)
  | JString s => Ok (PyStr.contains key s)
  | _ => Raise (mkExc "TypeError" "argument is not iterable")
  end.

(** ** [app.py]: the model router *)

(** The three adapter classes, each with the keyword arguments the source
    gives it. *)
Inductive ChatModel : Type :=
  | ChatOpenAI (temperature : float) (model : string) (api_key : string)
  | ChatGoogleGenerativeAI (temperature : float) (model : string)
      (google_api_key : string)
  | ChatAnthropic (temperature : float) (model : string) (api_key : string).

Record EvalyEngine : Type := mkEngine {
  data : gmap string pyval;
  model_type : pyval;
  platform : pyval;
  provider : string;
  llm : ChatModel
}.

(** Lines 22 to 42, the chain that chooses [self.llm]. *)
Definition model_router (provider api_key : string) : ChatModel :=
  if String.eqb provider "OpenAI (GPT-4o)" then
    ChatOpenAI 0%float "gpt-4o" api_key
  else if String.eqb provider "Google (Gemini 1.5 Pro)" then
    ChatGoogleGenerativeAI 0%float "gemini-1.5-pro" api_key
  else if String.eqb provider "Anthropic (Claude 3.5 Sonnet)" then
    ChatAnthropic 0%float "claude-3-5-sonnet-20240620" api_key
  else
    ChatOpenAI 0%float "gpt-4o" api_key.

(** [EvalyEngine.__init__] *)
Definition EvalyEngine_init (product_data : gmap string pyval)
    (api_key : string) (model_provider : string) : result EvalyEngine :=
  model_type ← getitem product_data "business_model";
  platform ← getitem product_data "platform";
  mret (mkEngine product_data model_type platform model_provider
                 (model_router model_provider api_key)).

(** The three entries of the selection box of line 138. *)
Definition supported_providers : list string :=
  [ "OpenAI (GPT-4o)"; "Google (Gemini 1.5 Pro)";
    "Anthropic (Claude 3.5 Sonnet)" ].

(** What an adapter was constructed with. *)
Definition temperature_of (m : ChatModel) : float :=
  match m with
  | ChatOpenAI t _ _ => t
  | ChatGoogleGenerativeAI t _ _ => t
  | ChatAnthropic t _ _ => t
  end.

Definition model_of (m : ChatModel) : string :=
  match m with
  | ChatOpenAI _ n _ => n
  | ChatGoogleGenerativeAI _ n _ => n
  | ChatAnthropic _ n _ => n
  end.

Definition credential_of (m : ChatModel) : string :=
  match m with
  | ChatOpenAI _ _ k => k
  | ChatGoogleGenerativeAI _ _ k => k
  | ChatAnthropic _ _ k => k
  end.

(** ** The response schema and its parser *)

Record ResponseSchema : Type := mkSchema {
  rs_name : string;
  rs_description : string
}.

(** Lines 89 to 93. *)
Definition response_schemas : list ResponseSchema :=
  [ mkSchema "verdict" "GREENLIGHT, GO, FIX, or KILL";
    mkSchema "action_plan" "3 bullet points on what to do next";
    mkSchema "scores"
      "JSON object with keys: margin, platform_fit, trend, competition, content, shipping, scalability, brand, risk. Each has 'score' (0-10) and 'insight' (string)." ].

Record StructuredOutputParser : Type := mkParser {
  parser_schemas : list ResponseSchema
}.

Definition from_response_schemas (l : list ResponseSchema)
  : StructuredOutputParser := mkParser l.

(** The text [get_format_instructions] produces is a function of the
    schemas; the schemas stand for it. *)
Definition get_format_instructions (p : StructuredOutputParser)
  : list ResponseSchema := parser_schemas p.

(** The decoder of the parsing library: the JSON value a response text
    holds, or [None] when the text does not decode. *)
Class JsonDecoder : Type := { parse_json_markdown : string -> option json }.

(** The loop of the library over the expected keys:
    [for key in expected_keys: if key not in json_obj: raise ...].
    The message of the library ends with the printed object, left out
    here. *)
Fixpoint check_keys (expected_keys : list string) (json_obj : json)
  : result json :=
  match expected_keys with
  | [] => Ok json_obj
  | key :: rest =>
      present ← py_in key json_obj;
      if (present : bool) then check_keys rest json_obj
      else Raise (mkExc "OutputParserException"
             ("Got invalid return object. Expected key `" +:+ key
              +:+ "` to be present"))
  end.

(** [StructuredOutputParser.parse]: decode, then check that every schema
    name is present. *)
Definition parse {decoder : JsonDecoder} (p : StructuredOutputParser) (text : string)
  : result json :=
  match parse_json_markdown text with
  | None => Raise (mkExc "OutputParserException" "Got invalid JSON object.")
  | Some json_obj => check_keys (rs_name <$> parser_schemas p) json_obj
  end.

(** ** [EvalyEngine.run_analysis] *)

(** The message sent to the model: the template of lines 46 to 86 is fixed
    text, so the message is given by the values put into its fields. *)
Record Prompt : Type := mkPrompt {
  prompt_model : pyval;
  prompt_platform : pyval;
  prompt_product_name : pyval;
  prompt_price : pyval;
  prompt_cost : pyval;
  prompt_format_instructions : list ResponseSchema
}.

(** The hosted model behind an adapter: the text of its answer
    ([response.content]), or the exception the call raises. *)
Class Provider : Type := { invoke : ChatModel -> Prompt -> result string }.

Section Engine.
Context {decoder : JsonDecoder} {backend : Provider}.

Definition run_analysis (self : EvalyEngine) : result json :=
  let output_parser := from_response_schemas response_schemas in
  let format_instructions := get_format_instructions output_parser in
  product_name ← getitem (data self) "name";
  price ← getitem (data self) "price";
  cost ← getitem (data self) "cost";
  let msg := mkPrompt (model_type self) (platform self) product_name price
                      cost format_instructions in
  response ← invoke (llm self) msg;
  parse output_parser response.

Definition analyze_product (input_data : gmap string pyval)
    (api_key : string) (model_provider : string) : result json :=
  engine ← EvalyEngine_init input_data api_key model_provider;
  run_analysis engine.

End Engine.

(** ** The handler of the start button *)

(** Lines 205 to 268 display a result: the widgets they emit and, when an
    index they use is missing, the exception that stops them. *)
Class Dashboard : Type := {
  widget : Type;
  render : json -> list widget * option PyException
}.

Section Handler.
Context {decoder : JsonDecoder} {backend : Provider} {dashboard : Dashboard}.

Inductive ui : Type :=
  | st_error (msg : string)
  | st_warning (msg : string)
  | shown (w : widget).

(** What [except Exception as e] of line 270 displays. *)
Definition show_exception (e : PyException) : list ui :=
  [ st_error ("An error occurred: " +:+ exc_str e);
    st_warning
      "Make sure your API Key is correct and has access to the selected model." ].

(** Lines 187 to 272. *)
Definition on_start (start_btn : bool) (user_api_key model_choice : string)
    (p_name : string) (cost price : float) (biz_model platform : string)
  : list ui :=
  if start_btn then
    if negb (truthy (PyStr user_api_key)) then
      [ st_error ("Please enter your " +:+ model_choice
                  +:+ " API Key in the sidebar.") ]
    else
      let input_data : gmap string pyval :=
        <["name" := PyStr p_name]>
        (<["cost" := PyFloat cost]>
        (<["price" := PyFloat price]>
        (<["business_model" := PyStr biz_model]>
        (<["platform" := PyStr platform]> ∅)))) in
      match analyze_product input_data user_api_key model_choice with
      | Ok result =>
          let '(ws, stopped) := render result in
          (shown <$> ws) ++
          match stopped with
          | Some e => show_exception e
          | None => []
          end
      | Raise e => show_exception e
      end
  else [].

End Handler.

(** ** The shape the specification gives to an analysis result *)

Definition criteria : list string :=
  [ "margin"; "platform_fit"; "trend"; "competition"; "content"; "shipping";
    "scalability"; "brand"; "risk" ].

(** An entry of [scores]: an integer [score] from 0 to 10 and a string
    [insight]. *)
Definition score_entry_ok (v : json) : bool :=
  match v with
  | JObject e =>
      match e !! "score", e !! "insight" with
      | Some (JInt n), Some (JString _) => (0 <=? n)%Z && (n <=? 10)%Z
      | _, _ => false
      end
  | _ => false
  end.

Definition scores_ok (v : json) : bool :=
  match v with
  | JObject sc =>
      forallb (fun k => match sc !! k with
                        | Some e => score_entry_ok e
                        | None => false
                        end) criteria
  | _ => false
  end.

(** The three top-level keys, and under [scores] the nine entries. *)
Definition has_required_shape (v : json) : bool :=
  match v with
  | JObject o =>
      bool_decide (is_Some (o !! "verdict"))
      && bool_decide (is_Some (o !! "action_plan"))
      && match o !! "scores" with
         | Some sc => scores_ok sc
         | None => false
         end
  | _ => false
  end.

(** ** A decoder to run the parser on concrete texts

    A strict decoder for the fragment of JSON made of objects, arrays,
    strings without escapes, integers, [true], [false] and [null]. Texts
    outside the fragment are rejected. *)

Module MiniJson.

Definition quote : ascii := ascii_of_nat 34.
Definition backslash : ascii := ascii_of_nat 92.

Definition is_ws (c : ascii) : bool :=
  Ascii.eqb c " " || Ascii.eqb c "009" || Ascii.eqb c "010" || Ascii.eqb c "013".

Fixpoint skip_ws (s : string) : string :=
  match s with
  | String c s' => if is_ws c then skip_ws s' else s
  | EmptyString => EmptyString
  end.

(** The characters up to the closing quote, and the text after it. *)
Fixpoint read_string (s : string) : option (string * string) :=
  match s with
  | EmptyString => None
  | String c s' =>
      if Ascii.eqb c quote then Some (EmptyString, s')
      else if Ascii.eqb c backslash then None
      else '(body, rest) ← read_string s'; Some (String c body, rest)
  end.

Definition digit (c : ascii) : option Z :=
  let n := Z.of_nat (nat_of_ascii c) in
  if ((48 <=? n) && (n <=? 57))%Z then Some (n - 48)%Z else None.

Fixpoint read_digits (acc : Z) (s : string) : Z * string :=
  match s with
  | String c s' =>
      match digit c with
      | Some d => read_digits (10 * acc + d)%Z s'
      | None => (acc, s)
      end
  | EmptyString => (acc, s)
  end.

(** A value needs at least one digit. *)
Definition read_int (s : string) : option (Z * string) :=
  match s with
  | String c _ =>
      match digit c with
      | Some _ => Some (read_digits 0 s)
      | None => None
      end
  | EmptyString => None
  end.

Definition strip_prefix (pre s : string) : option string :=
  if PyStr.startswith s pre
  then Some (String.substring (String.length pre)
                              (String.length s - String.length pre) s)
  else None.

Fixpoint value (fuel : nat) (s : string) : option (json * string) :=
  match fuel with
  | O => None
  | S n =>
      match skip_ws s with
      | String c r =>
          if Ascii.eqb c "{" then
            match skip_ws r with
            | String c' r' =>
                if Ascii.eqb c' "}" then Some (JObject ∅, r')
                else members n (skip_ws r) ∅
            | EmptyString => None
            end
          else if Ascii.eqb c "[" then
            match skip_ws r with
            | String c' r' =>
                if Ascii.eqb c' "]" then Some (JArray [], r')
                else elements n (skip_ws r) []
            | EmptyString => None
            end
          else if Ascii.eqb c quote then
            '(body, rest) ← read_string r; Some (JString body, rest)
          else if Ascii.eqb c "-" then
            '(z, rest) ← read_int r; Some (JInt (- z), rest)
          else
            match read_int (String c r) with
            | Some (z, rest) => Some (JInt z, rest)
            | None =>
                match strip_prefix "true" (String c r) with
                | Some rest => Some (JBool true, rest)
                | None =>
                    match strip_prefix "false" (String c r) with
                    | Some rest => Some (JBool false, rest)
                    | None =>
                        rest ← strip_prefix "null" (String c r);
                        Some (JNull, rest)
                    end
                end
            end
      | EmptyString => None
      end
  end
with members (fuel : nat) (s : string) (acc : gmap string json)
  : option (json * string) :=
  match fuel with
  | O => None
  | S n =>
      match s with
      | String c r =>
          if Ascii.eqb c quote then
            '(key, r1) ← read_string r;
            match skip_ws r1 with
            | String c1 r2 =>
                if Ascii.eqb c1 ":" then
                  '(v, r3) ← value n r2;
                  match skip_ws r3 with
                  | String c3 r4 =>
                      if Ascii.eqb c3 "," then
                        members n (skip_ws r4) (<[key := v]> acc)
                      else if Ascii.eqb c3 "}" then
                        Some (JObject (<[key := v]> acc), r4)
                      else None
                  | EmptyString => None
                  end
                else None
            | EmptyString => None
            end
          else None
      | EmptyString => None
      end
  end
with elements (fuel : nat) (s : string) (acc : list json)
  : option (json * string) :=
  match fuel with
  | O => None
  | S n =>
      '(v, r1) ← value n s;
      match skip_ws r1 with
      | String c r2 =>
          if Ascii.eqb c "," then elements n (skip_ws r2) (acc ++ [v])
          else if Ascii.eqb c "]" then Some (JArray (acc ++ [v]), r2)
          else None
      | EmptyString => None
      end
  end.

(** Texts are written below with an apostrophe for each double quote. *)
Fixpoint dq (s : string) : string :=
  match s with
  | String c s' => String (if Ascii.eqb c "'" then quote else c) (dq s')
  | EmptyString => EmptyString
  end.

(** The whole text must be one value. *)
Definition loads (text : string) : option json :=
  '(v, rest) ← value (S (String.length text)) text;
  match skip_ws rest with
  | EmptyString => Some v
  | String _ _ => None
  end.

End MiniJson.

Definition mini_decoder : JsonDecoder :=
  {| parse_json_markdown := MiniJson.loads |}.

(** ** Concrete collaborators, to run the code on examples *)

(** Conversions that know two prices. *)
Definition demo_builtins : PyBuiltins :=
  {| float_of_str := fun s =>
       if String.eqb s "19.5" then Some 19.5%float
       else if String.eqb s "24.50" then Some 24.5%float
       else None;
     float_of_int := fun z =>
       if (z =? 0)%Z then Some 0%float
       else if (z =? 1)%Z then Some 1%float
       else None;
     str_of_float := fun f =>
       if PrimFloat.eqb f 0%float then "0.0" else "19.5" |}.

(** A store that is reachable or not, with a catalogue and a shop record. *)
Record store : Type := mkStore {
  reachable : bool;
  catalog : list Product.t;
  shop : Shop.t;
  clear_fails : bool
}.

Definition offline : PyException :=
  mkExc "ConnectionError" "connection refused".

Definition has_id (i : Z) (p : Product.t) : bool :=
  match Product.id p with
  | PyInt j => (j =? i)%Z
  | _ => false
  end.

Definition has_title (q : string) (p : Product.t) : bool :=
  match Product.title p with
  | PyStr t => String.eqb t q
  | _ => false
  end.

Definition demo_sdk : ShopifySDK store :=
  {| Session_new := fun u v t w => (Ok (mkSession u v t), w);
     activate_session := fun _ w => (Ok tt, w);
     clear_session := fun w =>
       (if clear_fails w then Raise (mkExc "RuntimeError" "no session")
        else Ok tt, w);
     Shop_current := fun w =>
       (if reachable w then Ok (shop w) else Raise offline, w);
     Product_find_limit := fun limit w =>
       (if reachable w then Ok (take (Z.to_nat limit) (catalog w))
        else Raise offline, w);
     Product_find_id := fun i w =>
       (if reachable w then
          match List.find (has_id i) (catalog w) with
          | Some p => Ok p
          | None => Raise (mkExc "ResourceNotFound" "Not Found")
          end
        else Raise offline, w);
     Product_find_title := fun q limit w =>
       (if reachable w
        then Ok (take (Z.to_nat limit) (List.filter (has_title q) (catalog w)))
        else Raise offline, w) |}.

Definition demo_shop : Shop.t :=
  Shop.mk (PyStr "My Store") (PyStr "owner@example.com")
          (PyStr "mystore.myshopify.com") (PyStr "USD") (PyStr "UTC")
          (PyStr "basic").

Definition demo_variant : Variant.t :=
  Variant.mk (PyStr "19.5") (PyStr "24.50") (PyStr "BELT-1") (PyInt 7).

Definition demo_product : Product.t :=
  Product.mk (PyInt 42) (PyStr "Red Light Therapy Belt")
    [demo_variant] (PyStr "Wellness") (PyStr "Evaly") (PyStr "belt")
    (PyStr "active") (PyStr "2024-01-01T00:00:00Z")
    [Image.mk (PyStr "https://cdn.example.com/belt.png")]
    (PyStr "red-light-therapy-belt").

(** A record with no variant and no image. *)
Definition bare_product : Product.t :=
  Product.mk (PyInt 43) (PyStr "Draft") [] (PyStr "") (PyStr "") (PyStr "")
    (PyStr "draft") (PyStr "2024-01-02T00:00:00Z") [] (PyStr "draft").

Definition online_store : store :=
  mkStore true [demo_product; bare_product] demo_shop false.

Definition offline_store : store :=
  mkStore false [demo_product; bare_product] demo_shop false.

(** A connector for [mystore] in front of a store that cannot be reached,
    of the store above, and of a store with no product. *)
Definition offline_state : state :=
  mkState (ShopifyConnector_init "mystore" "tok") offline_store [].

Definition online_state : state :=
  mkState (ShopifyConnector_init "mystore" "tok") online_store [].

Definition empty_state : state :=
  mkState (ShopifyConnector_init "mystore" "tok")
          (mkStore true [] demo_shop false) [].

(** A provider that rejects an empty credential and the credential
    [sk-wrong] with an error of its own, and answers every other call with
    the same text. *)
Definition thin_answer : string :=
  MiniJson.dq "{'verdict': 'GO', 'action_plan': 'ship it', 'scores': {}}".

(** The object the text [thin_answer] holds. *)
Definition thin_result : json :=
  JObject (<["verdict" := JString "GO"]>
          (<["action_plan" := JString "ship it"]>
          (<["scores" := JObject ∅]> ∅))).

Definition demo_provider : Provider :=
  {| invoke := fun m _ =>
       if String.eqb (credential_of m) ""
       then Raise (mkExc "AuthenticationError" "No API key provided")
       else if String.eqb (credential_of m) "sk-wrong"
       then Raise (mkExc "AuthenticationError" "Incorrect API key provided")
       else Ok thin_answer |}.

Definition demo_dashboard : Dashboard :=
  {| widget := string; render := fun _ => ([], None) |}.

Definition demo_input : gmap string pyval :=
  <["name" := PyStr "Red Light Therapy Belt"]>
  (<["cost" := PyFloat 28%float]>
  (<["price" := PyFloat 129%float]>
  (<["business_model" := PyStr "Private Label"]>
  (<["platform" := PyStr "Shopify"]> ∅)))).

(** ** More collaborators for the examples *)

(** An SDK whose connection drops after the first request for the shop. *)
Definition flaky_sdk : ShopifySDK store :=
  {| Session_new := @Session_new store demo_sdk;
     activate_session := @activate_session store demo_sdk;
     clear_session := @clear_session store demo_sdk;
     Shop_current := fun w =>
       (if reachable w then Ok (shop w) else Raise offline,
        mkStore false (catalog w) (shop w) (clear_fails w));
     Product_find_limit := @Product_find_limit store demo_sdk;
     Product_find_id := @Product_find_id store demo_sdk;
     Product_find_title := @Product_find_title store demo_sdk |}.

(** A store whose SDK refuses to clear the session. *)
Definition sticky_store : store :=
  mkStore true [demo_product; bare_product] demo_shop true.

(** A record whose first variant has no price. *)
Definition unpriced_product : Product.t :=
  Product.mk (PyInt 44) (PyStr "Gift") [Variant.mk PyNone PyNone (PyStr "") (PyInt 0)]
    (PyStr "") (PyStr "") (PyStr "") (PyStr "active")
    (PyStr "2024-01-03T00:00:00Z") [] (PyStr "gift").

Definition unpriced_state : state :=
  mkState (ShopifyConnector_init "mystore" "tok")
          (mkStore true [demo_product; unpriced_product] demo_shop false) [].

(** ** The display of a result (lines 205 to 268)

    A decoded string holds the UTF-8 bytes of its characters. *)

(** The number of bytes of the character that starts with the byte [c]. *)
Definition utf8_width (c : ascii) : nat :=
  let n := nat_of_ascii c in
  if (n <? 192)%nat then 1%nat
  else if (n <? 224)%nat then 2%nat
  else if (n <? 240)%nat then 3%nat
  else 4%nat.

(** The characters of a string, as [for c in s] yields them. [cur] holds the
    bytes read of the current character and [more] the number of bytes it
    still misses. *)
Fixpoint py_chars_scan (cur : string) (more : nat) (s : string) : list string :=
  match s with
  | EmptyString =>
      match cur with
      | EmptyString => []
      | String _ _ => [cur]
      end
  | String c s' =>
      match more with
      | S O => (cur +:+ String c EmptyString) :: py_chars_scan EmptyString 0 s'
      | S (S k) => py_chars_scan (cur +:+ String c EmptyString) (S k) s'
      | O =>
          match utf8_width c with
          | S (S k) => py_chars_scan (String c EmptyString) (S k) s'
          | _ => String c EmptyString :: py_chars_scan EmptyString 0 s'
          end
      end
  end.

Definition py_chars (s : string) : list string :=
  py_chars_scan EmptyString 0 s.

(** [v[key]] for a decoded value and a string key (the texts are those of
    Python 3.11). *)
Definition json_getitem (v : json) (key : string) : result json :=
  match v with
  | JObject o =>
      match o !! key with
      | Some x => Ok x
      | None => Raise (mkExc "KeyError" ("'" +:+ key +:+ "'"))
      end
  | JArray _ =>
      Raise (mkExc "TypeError"
               "list indices must be integers or slices, not str")
  | JString _ =>
      Raise (mkExc "TypeError" "string indices must be integers, not 'str'")
  | JNull => Raise (mkExc "TypeError" "'NoneType' object is not subscriptable")
  | JBool _ => Raise (mkExc "TypeError" "'bool' object is not subscriptable")
  | JInt _ => Raise (mkExc "TypeError" "'int' object is not subscriptable")
  | JFloat _ => Raise (mkExc "TypeError" "'float' object is not subscriptable")
  end.

(** [v[0]]: the first element of a list, the first character of a string;
    a dictionary decoded from JSON has string keys only, so it has no key
    [0]. *)
Definition json_first (v : json) : result json :=
  match v with
  | JArray (x :: _) => Ok x
  | JArray [] => Raise (mkExc "IndexError" "list index out of range")
  | JString s =>
      match py_chars s with
      | c :: _ => Ok (JString c)
      | [] => Raise (mkExc "IndexError" "string index out of range")
      end
  | JObject _ => Raise (mkExc "KeyError" "0")
  | JNull => Raise (mkExc "TypeError" "'NoneType' object is not subscriptable")
  | JBool _ => Raise (mkExc "TypeError" "'bool' object is not subscriptable")
  | JInt _ => Raise (mkExc "TypeError" "'int' object is not subscriptable")
  | JFloat _ => Raise (mkExc "TypeError" "'float' object is not subscriptable")
  end.

(** What [for item in v] goes through. The display reaches its loop only
    after [v[0]] succeeded, that is for a list or a string; the keys of a
    dictionary are given here in the order of the finite map. *)
Definition json_iter (v : json) : result (list json) :=
  match v with
  | JArray l => Ok l
  | JString s => Ok (JString <$> py_chars s)
  | JObject o => Ok (JString <$> (map_to_list o).*1)
  | JNull => Raise (mkExc "TypeError" "'NoneType' object is not iterable")
  | JBool _ => Raise (mkExc "TypeError" "'bool' object is not iterable")
  | JInt _ => Raise (mkExc "TypeError" "'int' object is not iterable")
  | JFloat _ => Raise (mkExc "TypeError" "'float' object is not iterable")
  end.

(** [v == s] for a string [s]: only a string equals a string. *)
Definition json_eq_str (v : json) (s : string) : bool :=
  match v with
  | JString t => String.eqb t s
  | _ => false
  end.

(** Lines 209 and 210: the colour of the banner. *)
Definition verdict_color (verdict : json) : string :=
  let color :=
    if existsb (json_eq_str verdict) ["GREENLIGHT"; "GO"]
    then "#28a745" else "#dc3545" in
  if json_eq_str verdict "FIX" then "#ffc107" else color.

(** An f-string: its literal parts and the values put between them, each
    displayed as [str] prints it. *)
Inductive fpiece : Type :=
  | Lit (s : string)
  | Val (v : json).

(** The calls of the display. A widget made inside [with column:] carries
    the index of the column. *)
Inductive st_widget : Type :=
  | st_markdown (body : list fpiece) (unsafe_allow_html : bool)
  | st_divider
  | st_subheader (body : string)
  | st_columns (spec : nat)
  | st_metric (column : nat) (label : string) (value : list fpiece)
      (help : json)
  | st_caption (column : nat) (body : json).

(** The display: the widgets made so far, and a value or an exception. *)
Definition D (A : Type) : Type := list st_widget -> result A * list st_widget.

Global Instance D_ret : MRet D := fun _ a ws => (Ok a, ws).
Global Instance D_bind : MBind D := fun _ _ k m ws =>
  match m ws with
  | (Ok a, ws') => k a ws'
  | (Raise e, ws') => (Raise e, ws')
  end.

Definition emit (w : st_widget) : D unit :=
  fun ws => (Ok tt, (ws ++ [w])%list).

Definition eval {A : Type} (r : result A) : D A := fun ws => (r, ws).

Definition newline : string := String (ascii_of_nat 10) EmptyString.

Fixpoint spaces (n : nat) : string :=
  match n with
  | O => EmptyString
  | S k => String " " (spaces k)
  end.

(** The banner of lines 212 to 217; the HTML is written with an apostrophe
    for each double quote. *)
Definition banner (color : string) (verdict first_action : json)
  : list fpiece :=
  [ Lit (newline +:+ spaces 16
         +:+ MiniJson.dq "<div style='background-color: ");
    Val (JString color);
    Lit (MiniJson.dq ";' class='verdict-box'>" +:+ newline +:+ spaces 20
         +:+ MiniJson.dq "<h1 style='margin:0; color:white;'>VERDICT: ");
    Val verdict;
    Lit ("</h1>" +:+ newline +:+ spaces 20 +:+ "<p>");
    Val first_action;
    Lit ("</p>" +:+ newline +:+ spaces 16 +:+ "</div>" +:+ newline
         +:+ spaces 16) ].

(** One cell of the scorecard:
    [st.metric(label, f"{scores[key]['score']}/10",
               help=scores[key]['insight'])] and
    [st.caption(scores[key]['insight'])]. *)
Definition metric_cell (scores : json) (column : nat) (label key : string)
  : D unit :=
  entry ← eval (json_getitem scores key);
  score ← eval (json_getitem entry "score");
  entry ← eval (json_getitem scores key);
  insight ← eval (json_getitem entry "insight");
  emit (st_metric column label [Val score; Lit "/10"] insight);;
  entry ← eval (json_getitem scores key);
  insight ← eval (json_getitem entry "insight");
  emit (st_caption column insight).

(** [for item in items: st.markdown(f"- {item}")] *)
Fixpoint bullets (items : list json) : D unit :=
  match items with
  | [] => mret tt
  | item :: rest =>
      emit (st_markdown [Lit "- "; Val item] false);;
      bullets rest
  end.

(** Lines 205 to 268. *)
Definition render_result (result : json) : D unit :=
  scores ← eval (json_getitem result "scores");
  verdict ← eval (json_getitem result "verdict");
  let color := verdict_color verdict in
  action_plan ← eval (json_getitem result "action_plan");
  first_action ← eval (json_first action_plan);
  emit (st_markdown (banner color verdict first_action) true);;
  emit st_divider;;
  emit (st_subheader "üìä The 9-Point Scorecard");;
  emit (st_columns 3);;
  metric_cell scores 0 "üí∞ Profit Margin" "margin";;
  metric_cell scores 1 "üõí Platform Fit" "platform_fit";;
  metric_cell scores 2 "üìà Trend Velocity" "trend";;
  emit st_divider;;
  emit (st_columns 3);;
  metric_cell scores 0 "‚öîÔ∏è Competition" "competition";;
  metric_cell scores 1 "üé• Content Difficulty" "content";;
  metric_cell scores 2 "üì¶ Shipping Risk" "shipping";;
  emit st_divider;;
  emit (st_columns 3);;
  metric_cell scores 0 "üöÄ Scalability" "scalability";;
  metric_cell scores 1 "üè∞ Brand Potential" "brand";;
  metric_cell scores 2 "‚ö†Ô∏è Risk Factors" "risk";;
  emit st_divider;;
  emit (st_subheader "üìù Action Plan");;
  action_plan ← eval (json_getitem result "action_plan");
  items ← eval (json_iter action_plan);
  bullets items.

(** The dashboard of [app.py]. *)
Definition evaly_dashboard : Dashboard :=
  {| widget := st_widget;
     render := fun result =>
       match render_result result [] with
       | (Ok _, ws) => (ws, None)
       | (Raise e, ws) => (ws, Some e)
       end |}.

(** The values of the metrics and the items of the bullets among the
    widgets displayed. *)
Definition metric_of (w : st_widget) : option (string * list fpiece * json) :=
  match w with
  | st_metric _ label value help => Some (label, value, help)
  | _ => None
  end.

Definition bullet_of (w : st_widget) : option json :=
  match w with
  | st_markdown [Lit "- "; Val item] false => Some item
  | _ => None
  end.

(** The entry of a criterion, as the display reads it. *)
Definition shown_for (sc : gmap string json) (key : string)
    (m : string * list fpiece * json) : Prop :=
  exists e score,
    sc !! key = Some (JObject e)
    /\ e !! "score" = Some score
    /\ m.1.2 = [Val score; Lit "/10"]
    /\ e !! "insight" = Some m.2.

(** ** More examples *)

(** A connector that holds a session, in front of the store above and of
    the store whose SDK refuses to clear the session. *)
Definition demo_session : Session :=
  mkSession "mystore.myshopify.com" "2024-01" "tok".

Definition connected_state : state :=
  mkState (mkConnector "mystore.myshopify.com" "tok" "2024-01"
                       (Some demo_session))
          online_store [].

Definition sticky_state : state :=
  mkState (mkConnector "mystore.myshopify.com" "tok" "2024-01"
                       (Some demo_session))
          sticky_store [].

(** A complete answer of the model, and the object it holds. *)
Definition full_answer : string :=
  MiniJson.dq
    "{'verdict': 'GO',
      'action_plan': ['Order samples', 'Shoot a demo', 'Launch ads'],
      'scores': {
        'margin': {'score': 8, 'insight': 'healthy'},
        'platform_fit': {'score': 7, 'insight': 'visual'},
        'trend': {'score': 6, 'insight': 'rising'},
        'competition': {'score': 5, 'insight': 'crowded'},
        'content': {'score': 9, 'insight': 'clear demo'},
        'shipping': {'score': 4, 'insight': 'fragile'},
        'scalability': {'score': 7, 'insight': 'repeatable'},
        'brand': {'score': 6, 'insight': 'some moat'},
        'risk': {'score': 3, 'insight': 'claims'}}}".

Definition score_entry (score : Z) (insight : string) : json :=
  JObject (<["score" := JInt score]> (<["insight" := JString insight]> ∅)).

Definition full_scores : gmap string json :=
  <["margin" := score_entry 8 "healthy"]>
  (<["platform_fit" := score_entry 7 "visual"]>
  (<["trend" := score_entry 6 "rising"]>
  (<["competition" := score_entry 5 "crowded"]>
  (<["content" := score_entry 9 "clear demo"]>
  (<["shipping" := score_entry 4 "fragile"]>
  (<["scalability" := score_entry 7 "repeatable"]>
  (<["brand" := score_entry 6 "some moat"]>
  (<["risk" := score_entry 3 "claims"]> ∅)))))))).

Definition full_actions : list json :=
  [JString "Order samples"; JString "Shoot a demo"; JString "Launch ads"].

Definition full_object : gmap string json :=
  <["verdict" := JString "GO"]>
  (<["action_plan" := JArray full_actions]>
  (<["scores" := JObject full_scores]> ∅)).

(** The object of [thin_result], and the same with a string of actions and
    complete scores. *)
Definition thin_object : gmap string json :=
  <["verdict" := JString "GO"]>
  (<["action_plan" := JString "ship it"]>
  (<["scores" := JObject ∅]> ∅)).

Definition string_plan_object : gmap string json :=
  <["verdict" := JString "FIX"]>
  (<["action_plan" := JString "go"]>
  (<["scores" := JObject full_scores]> ∅)).

(** Providers that always send the complete answer, and a sentence that is
    no JSON. *)
Definition answering_provider : Provider :=
  {| invoke := fun _ _ => Ok full_answer |}.

Definition garbled_provider : Provider :=
  {| invoke := fun _ _ => Ok "I cannot answer that." |}.

(** Product data without a price. *)
Definition unpriced_input : gmap string pyval :=
  <["name" := PyStr "Red Light Therapy Belt"]>
  (<["cost" := PyFloat 28%float]>
  (<["business_model" := PyStr "Private Label"]>
  (<["platform" := PyStr "Shopify"]> ∅))).

(** * Properties *)

(** ** Strings *)

Section StringFacts.
Local Arguments String.append !_ _ / : simpl nomatch.

Lemma replace_scan_absent old new s :
  PyStr.contains old s = false -> PyStr.replace_scan old new 0 s = s.
Proof.
  induction s as [|c s IH]; intros Hc; [reflexivity|].
  cbn [PyStr.contains] in Hc. apply orb_false_iff in Hc as [Hp Hs].
  cbn [PyStr.replace_scan]. rewrite Hp. f_equal. auto.
Qed.

Lemma replace_absent s old new :
  PyStr.contains old s = false -> PyStr.replace s old new = s.
Proof.
  destruct old as [|a old]; intros Hc.
  - destruct s; discriminate.
  - apply replace_scan_absent, Hc.
Qed.

Lemma endswith_app t suf : PyStr.endswith (t +:+ suf) suf = true.
Proof.
  induction t as [|c t IH]; cbn.
  - destruct suf as [|a suf]; [reflexivity|].
    cbn [PyStr.endswith]. rewrite String.eqb_refl. reflexivity.
  - rewrite IH. apply orb_true_r.
Qed.

Lemma contains_tail sub c s :
  PyStr.contains sub s = true -> PyStr.contains sub (String c s) = true.
Proof. intros Hs. cbn [PyStr.contains]. rewrite Hs. apply orb_true_r. Qed.

Lemma endswith_contains_dot s :
  PyStr.endswith s ".myshopify.com" = true -> PyStr.contains "." s = true.
Proof.
  induction s as [|c s IH]; intros He; [discriminate|].
  cbn [PyStr.endswith] in He. apply orb_true_iff in He as [Heq|Ht].
  - apply String.eqb_eq in Heq. rewrite Heq. reflexivity.
  - apply contains_tail, IH, Ht.
Qed.

Lemma strip_schemes_absent s :
  PyStr.contains "https://" s = false -> PyStr.contains "http://" s = false ->
  strip_schemes s = s.
Proof.
  intros H1 H2. unfold strip_schemes. rewrite (replace_absent _ _ _ H1).
  apply replace_absent, H2.
Qed.

Lemma strip_schemes_https s :
  PyStr.contains "https://" s = false -> PyStr.contains "http://" s = false ->
  strip_schemes ("https://" +:+ s) = s.
Proof.
  intros H1 H2. unfold strip_schemes.
  replace (PyStr.replace ("https://" +:+ s) "https://" "") with s.
  - apply replace_absent, H2.
  - cbn. symmetry. apply replace_scan_absent, H1.
Qed.

Lemma strip_schemes_http s :
  PyStr.contains "https://" s = false -> PyStr.contains "http://" s = false ->
  strip_schemes ("http://" +:+ s) = s.
Proof.
  intros H1 H2. unfold strip_schemes.
  replace (PyStr.replace ("http://" +:+ s) "https://" "")
    with ("http://" +:+ s).
  - cbn. apply replace_scan_absent, H2.
  - cbn. do 7 f_equal. symmetry. apply replace_scan_absent, H1.
Qed.

(** What the two tests of lines 26 and 27 leave of a stripped string. *)
Lemma normalize_of_stripped s :
  normalize_shop_url s =
  if PyStr.contains "." (strip_schemes s) then strip_schemes s
  else strip_schemes s +:+ ".myshopify.com".
Proof.
  unfold normalize_shop_url. cbv zeta.
  destruct (PyStr.endswith (strip_schemes s) ".myshopify.com") eqn:He; cbn [negb].
  - rewrite (endswith_contains_dot _ He). reflexivity.
  - destruct (PyStr.contains "." (strip_schemes s)); reflexivity.
Qed.

End StringFacts.

(** ** The shop identifier *)

Example init_bare :
  shop_url (ShopifyConnector_init "mystore" "tok") = "mystore.myshopify.com".
Proof. reflexivity. Qed.

Example init_full :
  shop_url (ShopifyConnector_init "https://mystore.myshopify.com" "tok")
  = "mystore.myshopify.com".
Proof. reflexivity. Qed.

(** C3, as stated, fails: a scheme other than the two the constructor names
    is a URL scheme prefix too, and it is kept; the suffix is appended after
    it. *)
Lemma scheme_ftp_is_kept :
  shop_url (ShopifyConnector_init "ftp://mystore" "tok")
    = "ftp://mystore.myshopify.com"
  /\ PyStr.startswith (shop_url (ShopifyConnector_init "ftp://mystore" "tok"))
       "ftp://" = true.
Proof. split; reflexivity. Qed.

(** C3, amended: [mystore] is stored as [mystore.myshopify.com], and so is
    [https://mystore.myshopify.com]; for every name in which neither
    [https://] nor [http://] occurs, written bare or after one of these two
    prefixes, the constructor stores the name itself when it contains a dot
    and the name followed by [.myshopify.com] when it does not. *)
Theorem shop_identifier_normalization :
  shop_url (ShopifyConnector_init "mystore" "tok") = "mystore.myshopify.com"
  /\ shop_url (ShopifyConnector_init "https://mystore.myshopify.com" "tok")
     = "mystore.myshopify.com"
  /\ forall (name token : string),
       PyStr.contains "https://" name = false ->
       PyStr.contains "http://" name = false ->
       forall prefix : string,
         prefix ∈ [""; "http://"; "https://"] ->
         shop_url (ShopifyConnector_init (prefix +:+ name) token)
         = if PyStr.contains "." name then name
           else name +:+ ".myshopify.com".
Proof.
  split; [reflexivity|]. split; [reflexivity|].
  intros name token H1 H2 prefix Hp.
  cbn [ShopifyConnector_init shop_url]. rewrite normalize_of_stripped.
  assert (Hs : strip_schemes (prefix +:+ name) = name).
  { rewrite !elem_of_cons in Hp. destruct Hp as [->|[->|[->|Hp]]].
    - apply strip_schemes_absent; assumption.
    - apply strip_schemes_http; assumption.
    - apply strip_schemes_https; assumption.
    - inversion Hp. }
  rewrite Hs. reflexivity.
Qed.

Lemma shop_identifier_normalization_witness :
  shop_url (ShopifyConnector_init ("http://" +:+ "mystore") "tok")
  = "mystore.myshopify.com".
Proof.
  pose proof shop_identifier_normalization as (_ & _ & Hgen).
  apply (Hgen "mystore" "tok"); [reflexivity | reflexivity | ].
  apply list_elem_of_In. simpl. right. left. reflexivity.
Defined.

(** C9, as stated, fails: removing one [http://] can bring the two halves
    of another together, and the second normalization then removes what
    the first one stored. *)
Lemma normalization_not_idempotent :
  normalize_shop_url "hthttp://tp://mystore" = "http://mystore.myshopify.com"
  /\ normalize_shop_url (normalize_shop_url "hthttp://tp://mystore")
     = "mystore.myshopify.com"
  /\ normalize_shop_url (normalize_shop_url "hthttp://tp://mystore")
     <> normalize_shop_url "hthttp://tp://mystore".
Proof. split; [reflexivity|]. split; [reflexivity|]. discriminate. Qed.

(** C9, amended: for every input whose normalized value contains neither
    [https://] nor [http://], normalizing the normalized value leaves it
    unchanged, so a connector constructed from the [shop_url] of another
    connector stores the identical domain. *)
Theorem normalization_idempotent (s token token' : string) :
  PyStr.contains "https://" (normalize_shop_url s) = false ->
  PyStr.contains "http://" (normalize_shop_url s) = false ->
  normalize_shop_url (normalize_shop_url s) = normalize_shop_url s
  /\ shop_url (ShopifyConnector_init
                 (shop_url (ShopifyConnector_init s token)) token')
     = shop_url (ShopifyConnector_init s token).
Proof.
  intros H1 H2.
  assert (Hn : normalize_shop_url (normalize_shop_url s) = normalize_shop_url s).
  { pose proof (strip_schemes_absent _ H1 H2) as Hs.
    unfold normalize_shop_url at 1. cbv zeta. rewrite Hs.
    unfold normalize_shop_url. cbv zeta.
    destruct (PyStr.endswith (strip_schemes s) ".myshopify.com") eqn:He;
      cbn [negb].
    - rewrite He. reflexivity.
    - destruct (PyStr.contains "." (strip_schemes s)) eqn:Hd; cbn [negb].
      + rewrite He, Hd. reflexivity.
      + rewrite endswith_app. reflexivity. }
  split; [exact Hn|]. exact Hn.
Qed.

Lemma normalization_idempotent_witness :
  normalize_shop_url (normalize_shop_url "https://mystore")
  = normalize_shop_url "https://mystore".
Proof.
  apply (normalization_idempotent "https://mystore" "tok" "tok");
    reflexivity.
Defined.

(** ** The catalogue operations *)

Section ConnectorFacts.
Context {world : Type} {SDK : ShopifySDK world} {builtins : PyBuiltins}.

(** Unfolds the plumbing of a method down to the calls into the SDK. *)
Ltac run_method :=
  cbv [try_except mbind M_bind bind call mret M_ret ret print get_self
       set_session lift].

(** Reads an entry of a dictionary literal. *)
Ltac lookup_key :=
  repeat first
    [ rewrite lookup_insert_eq
    | rewrite lookup_insert_ne by discriminate ];
  try reflexivity.

Lemma get_products_raise (st : state) (e : PyException) (limit : Z) :
  (Product_find_limit limit (sdk st)).1 = Raise e ->
  (get_products limit st).1 = Ok []
  /\ stdout (get_products limit st).2
     = (stdout st ++ ["Error fetching products: " +:+ exc_str e])%list.
Proof.
  intros Hr. unfold get_products. run_method.
  destruct (Product_find_limit limit (sdk st)) as [r w]. cbn in Hr. subst r.
  split; reflexivity.
Qed.

Lemma get_product_by_id_raise (st : state) (e : PyException) (product_id : Z) :
  (Product_find_id product_id (sdk st)).1 = Raise e ->
  (get_product_by_id product_id st).1 = Ok None
  /\ stdout (get_product_by_id product_id st).2
     = (stdout st ++ ["Error fetching product: " +:+ exc_str e])%list.
Proof.
  intros Hr. unfold get_product_by_id. run_method.
  destruct (Product_find_id product_id (sdk st)) as [r w]. cbn in Hr. subst r.
  split; reflexivity.
Qed.

Lemma search_products_raise (st : state) (e : PyException) (query : string)
    (limit : Z) :
  (Product_find_title query limit (sdk st)).1 = Raise e ->
  (search_products query limit st).1 = Ok []
  /\ stdout (search_products query limit st).2
     = (stdout st ++ ["Error searching products: " +:+ exc_str e])%list.
Proof.
  intros Hr. unfold search_products. run_method.
  destruct (Product_find_title query limit (sdk st)) as [r w].
  cbn in Hr. subst r. split; reflexivity.
Qed.

Lemma get_shop_info_raise (st : state) (e : PyException) :
  (Shop_current (sdk st)).1 = Raise e ->
  (get_shop_info st).1 = Ok None
  /\ stdout (get_shop_info st).2
     = (stdout st ++ ["Error fetching shop info: " +:+ exc_str e])%list.
Proof.
  intros Hr. unfold get_shop_info. run_method.
  destruct (Shop_current (sdk st)) as [r w]. cbn in Hr. subst r.
  split; reflexivity.
Qed.

(** An empty catalogue gives the list operations the value a failure
    gives them. *)
Lemma get_products_empty (st : state) (limit : Z) :
  (Product_find_limit limit (sdk st)).1 = Ok [] ->
  (get_products limit st).1 = Ok [].
Proof.
  intros Hr. unfold get_products. run_method.
  destruct (Product_find_limit limit (sdk st)) as [r w]. cbn in Hr. subst r.
  reflexivity.
Qed.

Lemma search_products_empty (st : state) (query : string) (limit : Z) :
  (Product_find_title query limit (sdk st)).1 = Ok [] ->
  (search_products query limit st).1 = Ok [].
Proof.
  intros Hr. unfold search_products. run_method.
  destruct (Product_find_title query limit (sdk st)) as [r w].
  cbn in Hr. subst r. reflexivity.
Qed.

(** C4: when the call into the SDK raises, [get_products] and
    [search_products] return the empty list, [get_product_by_id] and
    [get_shop_info] return [None], each after printing one line that holds
    the text of the exception; nothing is propagated. The empty list is
    also what the two list operations return for a store with no product,
    so the returned value does not tell the two situations apart. *)
Theorem catalog_operations_swallow_exceptions (st : state) (e : PyException) :
  (forall limit,
     (Product_find_limit limit (sdk st)).1 = Raise e ->
     (get_products limit st).1 = Ok []
     /\ stdout (get_products limit st).2
        = (stdout st ++ ["Error fetching products: " +:+ exc_str e])%list)
  /\ (forall product_id,
        (Product_find_id product_id (sdk st)).1 = Raise e ->
        (get_product_by_id product_id st).1 = Ok None
        /\ stdout (get_product_by_id product_id st).2
           = (stdout st ++ ["Error fetching product: " +:+ exc_str e])%list)
  /\ (forall query limit,
        (Product_find_title query limit (sdk st)).1 = Raise e ->
        (search_products query limit st).1 = Ok []
        /\ stdout (search_products query limit st).2
           = (stdout st ++ ["Error searching products: " +:+ exc_str e])%list)
  /\ ((Shop_current (sdk st)).1 = Raise e ->
      (get_shop_info st).1 = Ok None
      /\ stdout (get_shop_info st).2
         = (stdout st ++ ["Error fetching shop info: " +:+ exc_str e])%list)
  /\ (forall limit,
        (Product_find_limit limit (sdk st)).1 = Ok [] ->
        (get_products limit st).1 = Ok [])
  /\ (forall query limit,
        (Product_find_title query limit (sdk st)).1 = Ok [] ->
        (search_products query limit st).1 = Ok []).
Proof.
  split; [intros limit; apply get_products_raise|].
  split; [intros product_id; apply get_product_by_id_raise|].
  split; [intros query limit; apply search_products_raise|].
  split; [apply get_shop_info_raise|].
  split; [intros limit; apply get_products_empty|].
  intros query limit; apply search_products_empty.
Qed.

(** No catalogue operation raises, whatever the SDK and the conversions
    do. *)
Lemma catalog_operations_never_raise (st : state) :
  (forall limit, exists l, (get_products limit st).1 = Ok l)
  /\ (forall product_id, exists o, (get_product_by_id product_id st).1 = Ok o)
  /\ (forall query limit, exists l, (search_products query limit st).1 = Ok l)
  /\ (exists o, (get_shop_info st).1 = Ok o).
Proof.
  repeat split; intros;
    unfold get_products, get_product_by_id, search_products, get_shop_info,
      try_except;
    match goal with
    | |- context [ match ?body st with _ => _ end ] =>
        destruct (body st) as [[a|e] st']
    end; cbn; eauto.
Qed.

(** ** The field mapping *)

Lemma product_data_zero_variants (domain : string) (product : Product.t) :
  Product.variants product = [] ->
  exists d, product_data domain product = Ok d
    /\ d !! "price" = Some (PyFloat 0)
    /\ d !! "compare_at_price" = Some PyNone
    /\ d !! "sku" = Some (PyStr "")
    /\ d !! "inventory_quantity" = Some (PyInt 0).
Proof.
  intros Hv. unfold product_data, first_variant. rewrite Hv.
  cbv [price_of compare_at_price_of mbind result_bind rbind mret result_ret].
  eexists; split; [reflexivity|]. repeat split; lookup_key.
Qed.

Lemma product_data_first_variant (domain : string) (product : Product.t)
    (v : Variant.t) (rest : list Variant.t) (f : float) (c : pyval) :
  Product.variants product = v :: rest ->
  py_float (Variant.price v) = Ok f ->
  (if truthy (Variant.compare_at_price v)
   then PyFloat <$> py_float (Variant.compare_at_price v)
   else Ok PyNone) = Ok c ->
  exists d, product_data domain product = Ok d
    /\ d !! "price" = Some (PyFloat f)
    /\ d !! "compare_at_price" = Some c
    /\ d !! "sku" = Some (Variant.sku v)
    /\ d !! "inventory_quantity" = Some (Variant.inventory_quantity v).
Proof.
  intros Hv Hf Hc. unfold product_data, first_variant. rewrite Hv.
  cbv [price_of compare_at_price_of]. rewrite Hf, Hc.
  cbv [mbind result_bind rbind mret result_ret].
  eexists; split; [reflexivity|]. repeat split; lookup_key.
Qed.

Lemma product_data_image_url (domain : string) (product : Product.t)
    (d : gmap string pyval) :
  product_data domain product = Ok d ->
  d !! "image_url"
  = Some (match Product.images product with
          | img :: _ => Image.src img
          | [] => PyNone
          end)
  /\ d !! "url"
     = Some (PyStr ("https://" +:+ domain +:+ "/products/"
                    +:+ py_str (Product.handle product))).
Proof.
  unfold product_data.
  destruct (price_of (first_variant product)) as [f|e]; [|discriminate].
  destruct (compare_at_price_of (first_variant product)) as [c|e];
    [|discriminate].
  cbv [mbind result_bind rbind mret result_ret].
  intros [= <-]. split; lookup_key.
Qed.

Lemma get_product_by_id_found (st : state) (product_id : Z)
    (product : Product.t) (d : gmap string pyval) :
  (Product_find_id product_id (sdk st)).1 = Ok product ->
  product_data (shop_url (self st)) product = Ok d ->
  (get_product_by_id product_id st).1 = Ok (Some d).
Proof.
  intros Hr Hd. unfold get_product_by_id. run_method.
  destruct (Product_find_id product_id (sdk st)) as [r w]. cbn in Hr. subst r.
  cbn [self]. rewrite Hd. reflexivity.
Qed.

Lemma get_products_found (st : state) (limit : Z) (ps : list Product.t)
    (ds : list (gmap string pyval)) :
  (Product_find_limit limit (sdk st)).1 = Ok ps ->
  for_each (product_data (shop_url (self st))) ps = Ok ds ->
  (get_products limit st).1 = Ok ds.
Proof.
  intros Hr Hd. unfold get_products. run_method.
  destruct (Product_find_limit limit (sdk st)) as [r w]. cbn in Hr. subst r.
  cbn [self]. rewrite Hd. reflexivity.
Qed.

(** C5: the dictionary built for a fetched product takes price,
    compare-at price, SKU and inventory count from the first variant; a
    product with no variant gets price 0.0, SKU [""] and inventory 0 (and
    no compare-at price); the image is the first one, [None] when there is
    none; the URL is [https://], the shop domain of the connector,
    [/products/] and the handle. [get_product_by_id] returns that
    dictionary and [get_products] the list of them. *)
Theorem product_field_mapping (domain : string) (product : Product.t) :
  (Product.variants product = [] ->
   exists d, product_data domain product = Ok d
     /\ d !! "price" = Some (PyFloat 0)
     /\ d !! "compare_at_price" = Some PyNone
     /\ d !! "sku" = Some (PyStr "")
     /\ d !! "inventory_quantity" = Some (PyInt 0))
  /\ (forall v rest f c,
        Product.variants product = v :: rest ->
        py_float (Variant.price v) = Ok f ->
        (if truthy (Variant.compare_at_price v)
         then PyFloat <$> py_float (Variant.compare_at_price v)
         else Ok PyNone) = Ok c ->
        exists d, product_data domain product = Ok d
          /\ d !! "price" = Some (PyFloat f)
          /\ d !! "compare_at_price" = Some c
          /\ d !! "sku" = Some (Variant.sku v)
          /\ d !! "inventory_quantity" = Some (Variant.inventory_quantity v))
  /\ (forall d,
        product_data domain product = Ok d ->
        d !! "image_url"
        = Some (match Product.images product with
                | img :: _ => Image.src img
                | [] => PyNone
                end)
        /\ d !! "url"
           = Some (PyStr ("https://" +:+ domain +:+ "/products/"
                          +:+ py_str (Product.handle product))))
  /\ (forall (st : state) product_id d,
        (Product_find_id product_id (sdk st)).1 = Ok product ->
        product_data (shop_url (self st)) product = Ok d ->
        (get_product_by_id product_id st).1 = Ok (Some d))
  /\ (forall (st : state) limit ps ds,
        (Product_find_limit limit (sdk st)).1 = Ok ps ->
        for_each (product_data (shop_url (self st))) ps = Ok ds ->
        (get_products limit st).1 = Ok ds).
Proof.
  split; [apply product_data_zero_variants|].
  split; [intros v rest f c; apply product_data_first_variant|].
  split; [intros d; apply product_data_image_url|].
  split; [intros st product_id d; apply get_product_by_id_found|].
  intros st limit ps ds; apply get_products_found.
Qed.

(** ** [test_connection] *)

(** C10: [test_connection] returns a pair of a boolean and a message for
    every shop URL and token, whatever the SDK does: a failure to connect
    gives [False] and the advice to check the credentials, an exception
    that reaches the outer handler gives [False] and its text, and the two
    other outcomes give [True]. *)
Theorem test_connection_total (url token : string) (w : world)
    (out : list string) :
  exists (b : bool) (msg : string),
    (test_connection url token w out).1 = Ok (b, msg)
    /\ ((b = false /\ msg = "❌ Failed to connect. Check your credentials.")
        \/ (b = false /\ exists e, msg = "❌ Connection error: " +:+ exc_str e)
        \/ (b = true /\ msg = "✅ Connection successful")
        \/ (b = true /\ exists name, msg = "✅ Connected to " +:+ py_str name)).
Proof.
  unfold test_connection, connect, get_shop_info, disconnect. run_method.
  cbn [self sdk stdout ShopifyConnector_init shop_url access_token
       api_version session].
  destruct (Session_new _ _ _ w) as [[s|e] w1]; cbn;
    [|eexists _, _; split; [reflexivity|]; left; split; reflexivity].
  destruct (activate_session s w1) as [[[]|e] w2]; cbn;
    [|eexists _, _; split; [reflexivity|]; left; split; reflexivity].
  destruct (Shop_current w2) as [[shop0|e] w3]; cbn;
    [|eexists _, _; split; [reflexivity|]; left; split; reflexivity].
  destruct (Shop_current w3) as [[shop1|e] w4]; cbn.
  - destruct (clear_session w4) as [[[]|e] w5]; cbn.
    + rewrite bool_decide_eq_false_2 by apply insert_non_empty. cbn.
      unfold getitem. rewrite lookup_insert_eq. cbn.
      eexists _, _; split; [reflexivity|].
      right; right; right. split; [reflexivity|]. eexists; reflexivity.
    + eexists _, _; split; [reflexivity|].
      right; left. split; [reflexivity|]. eexists; reflexivity.
  - destruct (clear_session w4) as [[[]|e'] w5]; cbn.
    + eexists _, _; split; [reflexivity|].
      right; right; left. split; reflexivity.
    + eexists _, _; split; [reflexivity|].
      right; left. split; [reflexivity|]. eexists; reflexivity.
Qed.

End ConnectorFacts.

Lemma catalog_operations_swallow_exceptions_witness :
  (@get_products store demo_sdk demo_builtins 50 offline_state).1 = Ok []
  /\ (@get_product_by_id store demo_sdk demo_builtins 42 offline_state).1
     = Ok None
  /\ (@search_products store demo_sdk demo_builtins "Draft" 20 offline_state).1
     = Ok []
  /\ stdout (@get_shop_info store demo_sdk offline_state).2
     = ["Error fetching shop info: connection refused"]
  /\ (@get_products store demo_sdk demo_builtins 50 empty_state).1 = Ok []
  /\ (@search_products store demo_sdk demo_builtins "Draft" 20 empty_state).1
     = Ok [].
Proof.
  destruct (@catalog_operations_swallow_exceptions store demo_sdk
              demo_builtins offline_state offline)
    as (H1 & H2 & H3 & H4 & _ & _).
  destruct (@catalog_operations_swallow_exceptions store demo_sdk
              demo_builtins empty_state offline)
    as (_ & _ & _ & _ & H5 & H6).
  split; [apply (H1 50%Z); reflexivity|].
  split; [apply (H2 42%Z); reflexivity|].
  split; [apply (H3 "Draft" 20%Z); reflexivity|].
  split; [apply H4; reflexivity|].
  split; [apply (H5 50%Z); reflexivity|].
  apply (H6 "Draft" 20%Z); reflexivity.
Defined.

Lemma product_field_mapping_witness :
  exists d d',
    @product_data demo_builtins "mystore.myshopify.com" bare_product = Ok d'
    /\ d' !! "price" = Some (PyFloat 0)
    /\ d' !! "sku" = Some (PyStr "")
    /\ d' !! "inventory_quantity" = Some (PyInt 0)
    /\ d' !! "image_url" = Some PyNone
    /\ @product_data demo_builtins "mystore.myshopify.com" demo_product = Ok d
    /\ d !! "price" = Some (PyFloat 19.5)
    /\ d !! "compare_at_price" = Some (PyFloat 24.5)
    /\ d !! "sku" = Some (PyStr "BELT-1")
    /\ d !! "inventory_quantity" = Some (PyInt 7)
    /\ d !! "url"
       = Some (PyStr
           "https://mystore.myshopify.com/products/red-light-therapy-belt")
    /\ (@get_product_by_id store demo_sdk demo_builtins 42 online_state).1
       = Ok (Some d)
    /\ (@get_products store demo_sdk demo_builtins 50 online_state).1
       = Ok [d; d'].
Proof.
  destruct (@product_field_mapping store demo_sdk demo_builtins
              "mystore.myshopify.com" bare_product)
    as (Hzero & _ & Himg' & _ & _).
  destruct (@product_field_mapping store demo_sdk demo_builtins
              "mystore.myshopify.com" demo_product)
    as (_ & Hfirst & Himg & Hid & Hall).
  destruct (Hzero eq_refl) as (d' & Hd' & Hp' & _ & Hs' & Hq').
  destruct (Hfirst demo_variant [] 19.5%float (PyFloat 24.5%float)
              eq_refl eq_refl eq_refl) as (d & Hd & Hp & Hc & Hs & Hq).
  exists d, d'.
  split; [exact Hd'|]. split; [exact Hp'|]. split; [exact Hs'|].
  split; [exact Hq'|]. split; [exact (proj1 (Himg' d' Hd'))|].
  split; [exact Hd|]. split; [exact Hp|]. split; [exact Hc|].
  split; [exact Hs|]. split; [exact Hq|].
  split; [exact (proj2 (Himg d Hd))|].
  split; [exact (Hid online_state 42%Z d eq_refl Hd)|].
  apply (Hall online_state 50%Z [demo_product; bare_product] [d; d']);
    [reflexivity|].
  change (for_each (@product_data demo_builtins "mystore.myshopify.com")
            [demo_product; bare_product] = Ok [d; d']).
  cbn [for_each]. rewrite Hd, Hd'. reflexivity.
Defined.

(** ** The model router *)

Lemma getitem_some (d : gmap string pyval) (key : string) :
  is_Some (d !! key) -> exists v, getitem d key = Ok v /\ d !! key = Some v.
Proof. intros [v Hv]. exists v. unfold getitem. rewrite Hv. auto. Qed.

Lemma EvalyEngine_init_ok (input_data : gmap string pyval)
    (api_key provider : string) :
  is_Some (input_data !! "business_model") ->
  is_Some (input_data !! "platform") ->
  exists engine,
    EvalyEngine_init input_data api_key provider = Ok engine
    /\ data engine = input_data
    /\ llm engine = model_router provider api_key.
Proof.
  intros Hb Hp.
  destruct (getitem_some _ _ Hb) as (b & Hgb & _).
  destruct (getitem_some _ _ Hp) as (p & Hgp & _).
  unfold EvalyEngine_init. rewrite Hgb, Hgp.
  eexists; split; [reflexivity|]. split; reflexivity.
Qed.

Lemma model_router_unknown (provider api_key : string) :
  provider ∉ supported_providers ->
  model_router provider api_key = ChatOpenAI 0 "gpt-4o" api_key.
Proof.
  unfold supported_providers. rewrite !not_elem_of_cons.
  intros (H1 & H2 & H3 & _). unfold model_router.
  apply String.eqb_neq in H1, H2, H3. rewrite H1, H2, H3. reflexivity.
Qed.

(** C2: a provider string that is none of the three enumerated ones makes
    the constructor build what it builds for the first of them, the OpenAI
    adapter with model [gpt-4o], temperature 0 and the credential given; for
    product data that hold the two fields the constructor reads, the
    constructor returns the engine and raises nothing. *)
Theorem unknown_provider_falls_back (input_data : gmap string pyval)
    (api_key provider : string) :
  provider ∉ supported_providers ->
  model_router provider api_key = ChatOpenAI 0 "gpt-4o" api_key
  /\ model_router provider api_key = model_router "OpenAI (GPT-4o)" api_key
  /\ (is_Some (input_data !! "business_model") ->
      is_Some (input_data !! "platform") ->
      exists engine,
        EvalyEngine_init input_data api_key provider = Ok engine
        /\ llm engine = ChatOpenAI 0 "gpt-4o" api_key).
Proof.
  intros Hp. pose proof (model_router_unknown _ api_key Hp) as Hr.
  split; [exact Hr|]. split; [rewrite Hr; reflexivity|].
  intros Hb Hpl.
  destruct (EvalyEngine_init_ok input_data api_key provider Hb Hpl)
    as (engine & He & _ & Hl).
  exists engine. split; [exact He|]. rewrite Hl. exact Hr.
Qed.

Lemma unknown_provider_falls_back_witness :
  exists engine,
    EvalyEngine_init demo_input "sk-test" "OpenAI" = Ok engine
    /\ llm engine = ChatOpenAI 0 "gpt-4o" "sk-test".
Proof.
  assert (Hp : "OpenAI" ∉ supported_providers).
  { unfold supported_providers. rewrite !not_elem_of_cons.
    repeat split; try discriminate. apply not_elem_of_nil. }
  destruct (unknown_provider_falls_back demo_input "sk-test" "OpenAI" Hp)
    as (_ & _ & Hinit).
  apply Hinit; eexists; reflexivity.
Defined.

(** C6: each of the three supported selections gets the adapter of its
    provider, constructed with temperature 0, the fixed model identifier of
    that provider and the credential of the caller; it is the adapter the
    engine holds. *)
Theorem supported_provider_adapters (api_key : string) :
  model_router "OpenAI (GPT-4o)" api_key = ChatOpenAI 0 "gpt-4o" api_key
  /\ model_router "Google (Gemini 1.5 Pro)" api_key
     = ChatGoogleGenerativeAI 0 "gemini-1.5-pro" api_key
  /\ model_router "Anthropic (Claude 3.5 Sonnet)" api_key
     = ChatAnthropic 0 "claude-3-5-sonnet-20240620" api_key
  /\ forall (input_data : gmap string pyval) (provider : string),
       provider ∈ supported_providers ->
       is_Some (input_data !! "business_model") ->
       is_Some (input_data !! "platform") ->
       exists engine,
         EvalyEngine_init input_data api_key provider = Ok engine
         /\ llm engine = model_router provider api_key
         /\ temperature_of (llm engine) = 0%float
         /\ credential_of (llm engine) = api_key
         /\ model_of (llm engine)
            ∈ ["gpt-4o"; "gemini-1.5-pro"; "claude-3-5-sonnet-20240620"].
Proof.
  split; [reflexivity|]. split; [reflexivity|]. split; [reflexivity|].
  intros input_data provider Hp Hb Hpl.
  destruct (EvalyEngine_init_ok input_data api_key provider Hb Hpl)
    as (engine & He & _ & Hl).
  exists engine. split; [exact He|]. split; [exact Hl|]. rewrite Hl.
  unfold supported_providers in Hp. rewrite !elem_of_cons in Hp.
  destruct Hp as [->|[->|[->|Hp]]]; [| | |inversion Hp];
    cbn; (split; [reflexivity|]); (split; [reflexivity|]);
    rewrite !elem_of_cons; auto.
Qed.

Lemma supported_provider_adapters_witness :
  exists engine,
    EvalyEngine_init demo_input "sk-test" "Google (Gemini 1.5 Pro)" = Ok engine
    /\ llm engine = ChatGoogleGenerativeAI 0 "gemini-1.5-pro" "sk-test".
Proof.
  destruct (supported_provider_adapters "sk-test") as (_ & _ & _ & Hall).
  destruct (Hall demo_input "Google (Gemini 1.5 Pro)") as (engine & He & Hl & _).
  - unfold supported_providers. rewrite !elem_of_cons. auto.
  - eexists; reflexivity.
  - eexists; reflexivity.
  - exists engine. split; [exact He|exact Hl].
Defined.

(** ** The response parser *)

Section ParserFacts.
Context {decoder : JsonDecoder}.

(** The names the parser of [run_analysis] looks for. *)
Lemma expected_keys :
  rs_name <$> parser_schemas (from_response_schemas response_schemas)
  = ["verdict"; "action_plan"; "scores"].
Proof. reflexivity. Qed.

Lemma check_keys_ok (keys : list string) (v a : json) :
  check_keys keys v = Ok a ->
  a = v /\ Forall (fun k => py_in k v = Ok true) keys.
Proof.
  induction keys as [|k keys IH]; cbn [check_keys].
  - intros [= <-]. split; [reflexivity|constructor].
  - destruct (py_in k v) as [[|]|e] eqn:Hin; cbn; try discriminate.
    intros Hrest. destruct (IH Hrest) as [-> Hall].
    split; [reflexivity|]. constructor; assumption.
Qed.

Lemma check_keys_object_present (keys : list string) (o : gmap string json) :
  Forall (fun k => is_Some (o !! k)) keys ->
  check_keys keys (JObject o) = Ok (JObject o).
Proof.
  induction 1 as [|k keys Hk _ IH]; cbn [check_keys py_in]; [reflexivity|].
  rewrite bool_decide_eq_true_2 by exact Hk. cbn. exact IH.
Qed.

Lemma check_keys_object_missing (keys : list string) (o : gmap string json) :
  ~ Forall (fun k => is_Some (o !! k)) keys ->
  exists e, check_keys keys (JObject o) = Raise e
            /\ exc_type e = "OutputParserException".
Proof.
  induction keys as [|k keys IH]; intros Hn.
  - exfalso. apply Hn. constructor.
  - cbn [check_keys py_in]. destruct (decide (is_Some (o !! k))) as [Hk|Hk].
    + rewrite bool_decide_eq_true_2 by exact Hk. cbn. apply IH.
      intros Hall. apply Hn. constructor; assumption.
    + rewrite bool_decide_eq_false_2 by exact Hk. cbn.
      eexists; split; reflexivity.
Qed.

(** C1, amended: the parser of [run_analysis] returns a value only when the
    text decodes and each of the names [verdict], [action_plan] and [scores]
    is found in the decoded value; a decoded JSON object is returned exactly
    when it has these three top-level keys, and the parser raises
    [OutputParserException] when one is missing or when the text does not
    decode. What stands under the keys is not examined. *)
Theorem parser_checks_top_level_keys (text : string) :
  let parser := from_response_schemas response_schemas in
  (forall a, parse parser text = Ok a ->
     parse_json_markdown text = Some a
     /\ py_in "verdict" a = Ok true
     /\ py_in "action_plan" a = Ok true
     /\ py_in "scores" a = Ok true)
  /\ (forall o, parse_json_markdown text = Some (JObject o) ->
        (is_Some (o !! "verdict") /\ is_Some (o !! "action_plan")
         /\ is_Some (o !! "scores")
         -> parse parser text = Ok (JObject o))
        /\ (~ (is_Some (o !! "verdict") /\ is_Some (o !! "action_plan")
               /\ is_Some (o !! "scores"))
            -> exists e, parse parser text = Raise e
                         /\ exc_type e = "OutputParserException"))
  /\ (parse_json_markdown text = None ->
      exists e, parse parser text = Raise e
                /\ exc_type e = "OutputParserException").
Proof.
  cbv zeta. unfold parse. rewrite expected_keys. repeat apply conj.
  - intros a. destruct (parse_json_markdown text) as [v|]; [|discriminate].
    intros Hc. destruct (check_keys_ok _ _ _ Hc) as [-> Hall].
    split; [reflexivity|].
    inversion Hall as [|? ? H1 Hall1]; subst.
    inversion Hall1 as [|? ? H2 Hall2]; subst.
    inversion Hall2 as [|? ? H3 _]; subst. auto.
  - intros o ->. split.
    + intros (H1 & H2 & H3). apply check_keys_object_present.
      repeat constructor; assumption.
    + intros Hn. apply check_keys_object_missing. intros Hall. apply Hn.
      inversion Hall as [|? ? H1 Hall1]; subst.
      inversion Hall1 as [|? ? H2 Hall2]; subst.
      inversion Hall2 as [|? ? H3 _]; subst. auto.
  - intros ->. eexists; split; reflexivity.
Qed.

(** C7: for a text that decodes, two applications of the parser give equal
    results; a result that is returned is the decoded value, and it is
    returned whenever the decoded object has the three top-level keys. *)
Theorem parse_twice_equal (text : string) (v : json) :
  parse_json_markdown text = Some v ->
  let first := parse (from_response_schemas response_schemas) text in
  let second := parse (from_response_schemas response_schemas) text in
  first = second
  /\ (forall a, first = Ok a -> a = v /\ second = Ok v)
  /\ (forall o, v = JObject o ->
        is_Some (o !! "verdict") -> is_Some (o !! "action_plan") ->
        is_Some (o !! "scores") ->
        first = Ok v /\ second = Ok v).
Proof.
  intros Hd. cbv zeta. split; [reflexivity|]. split.
  - intros a Ha. unfold parse in *. rewrite Hd in *.
    destruct (check_keys_ok _ _ _ Ha) as [-> _]. auto.
  - intros o -> H1 H2 H3. unfold parse. rewrite Hd, expected_keys.
    rewrite check_keys_object_present by (repeat constructor; assumption).
    auto.
Qed.

End ParserFacts.

(** C1, as stated, fails: the parser returns a result whose [scores] has
    none of the nine entries, and [evaluate] returns it to its caller. *)
Lemma parser_accepts_empty_scores :
  @parse mini_decoder (from_response_schemas response_schemas) thin_answer
    = Ok thin_result
  /\ has_required_shape thin_result = false
  /\ @analyze_product mini_decoder demo_provider demo_input "sk-test"
       "OpenAI (GPT-4o)" = Ok thin_result.
Proof. split; [|split]; vm_compute; reflexivity. Qed.

Lemma parser_checks_top_level_keys_witness :
  @parse mini_decoder (from_response_schemas response_schemas) thin_answer
    = Ok thin_result
  /\ (exists e,
        @parse mini_decoder (from_response_schemas response_schemas)
          (MiniJson.dq "{'verdict': 'GO', 'scores': {}}") = Raise e
        /\ exc_type e = "OutputParserException")
  /\ (exists e,
        @parse mini_decoder (from_response_schemas response_schemas) ""
          = Raise e
        /\ exc_type e = "OutputParserException").
Proof.
  split; [|split].
  - destruct (@parser_checks_top_level_keys mini_decoder thin_answer)
      as (_ & Hobj & _).
    refine (proj1 (Hobj (<["verdict" := JString "GO"]>
                        (<["action_plan" := JString "ship it"]>
                        (<["scores" := JObject ∅]> ∅))) _) _).
    + vm_compute. reflexivity.
    + repeat split; eexists; vm_compute; reflexivity.
  - destruct (@parser_checks_top_level_keys mini_decoder
                (MiniJson.dq "{'verdict': 'GO', 'scores': {}}"))
      as (_ & Hobj & _).
    refine (proj2 (Hobj (<["verdict" := JString "GO"]>
                        (<["scores" := JObject ∅]> ∅)) _) _).
    + vm_compute. reflexivity.
    + intros (_ & [x Hx] & _). vm_compute in Hx. discriminate.
  - destruct (@parser_checks_top_level_keys mini_decoder "") as (_ & _ & Hnone).
    apply Hnone. vm_compute. reflexivity.
Defined.

Lemma parse_twice_equal_witness :
  @parse mini_decoder (from_response_schemas response_schemas) thin_answer
  = @parse mini_decoder (from_response_schemas response_schemas) thin_answer
  /\ @parse mini_decoder (from_response_schemas response_schemas) thin_answer
     = Ok thin_result.
Proof.
  assert (Hd : @parse_json_markdown mini_decoder thin_answer = Some thin_result)
    by (vm_compute; reflexivity).
  destruct (@parse_twice_equal mini_decoder thin_answer thin_result Hd)
    as (Heq & _ & Hobj).
  split; [exact Heq|].
  refine (proj1 (Hobj _ eq_refl _ _ _)); eexists; vm_compute; reflexivity.
Defined.

(** ** The credential *)

Section CredentialFacts.
Context {decoder : JsonDecoder} {backend : Provider} {dashboard : Dashboard}.

(** With product data that hold the five fields, [analyze_product] is one
    call of the adapter followed by the parser. *)
Lemma analyze_product_invokes (input_data : gmap string pyval)
    (api_key provider : string) (bm pf name price cost : pyval) :
  input_data !! "business_model" = Some bm ->
  input_data !! "platform" = Some pf ->
  input_data !! "name" = Some name ->
  input_data !! "price" = Some price ->
  input_data !! "cost" = Some cost ->
  analyze_product input_data api_key provider
  = response ← invoke (model_router provider api_key)
                 (mkPrompt bm pf name price cost response_schemas);
    parse (from_response_schemas response_schemas) response.
Proof.
  intros Hb Hp Hn Hpr Hc.
  unfold analyze_product, EvalyEngine_init, run_analysis, getitem.
  rewrite Hb, Hp. cbn. rewrite Hn, Hpr, Hc. reflexivity.
Qed.

(** C8, amended: with an empty credential the handler of the start button
    displays the request to enter the key and does not call the engine; the
    engine does not examine the credential, it hands it to the adapter; an
    exception the provider raises, such as the rejection of the credential,
    leaves [analyze_product] unchanged, and the handler displays its text as
    a generic error followed by the advice to check the key. *)
Theorem credential_handling :
  (forall model_choice p_name cost price biz_model platform,
     on_start true "" model_choice p_name cost price biz_model platform
     = [ st_error ("Please enter your " +:+ model_choice
                   +:+ " API Key in the sidebar.") ])
  /\ (forall input_data api_key provider,
        is_Some (input_data !! "business_model") ->
        is_Some (input_data !! "platform") ->
        exists engine,
          EvalyEngine_init input_data api_key provider = Ok engine
          /\ credential_of (llm engine) = api_key)
  /\ (forall input_data api_key provider bm pf name price cost e,
        input_data !! "business_model" = Some bm ->
        input_data !! "platform" = Some pf ->
        input_data !! "name" = Some name ->
        input_data !! "price" = Some price ->
        input_data !! "cost" = Some cost ->
        invoke (model_router provider api_key)
               (mkPrompt bm pf name price cost response_schemas) = Raise e ->
        analyze_product input_data api_key provider = Raise e)
  /\ (forall api_key model_choice p_name cost price biz_model platform e,
        api_key <> "" ->
        invoke (model_router model_choice api_key)
               (mkPrompt (PyStr biz_model) (PyStr platform) (PyStr p_name)
                         (PyFloat price) (PyFloat cost) response_schemas)
          = Raise e ->
        on_start true api_key model_choice p_name cost price biz_model
                 platform
        = [ st_error ("An error occurred: " +:+ exc_str e);
            st_warning
              "Make sure your API Key is correct and has access to the selected model." ]).
Proof.
  split; [reflexivity|]. split; [|split].
  - intros input_data api_key provider Hb Hp.
    destruct (EvalyEngine_init_ok input_data api_key provider Hb Hp)
      as (engine & He & _ & Hl).
    exists engine. split; [exact He|]. rewrite Hl. unfold model_router.
    repeat match goal with |- context [String.eqb ?a ?b] =>
      destruct (String.eqb a b) end; reflexivity.
  - intros input_data api_key provider bm pf name price cost e
      Hb Hp Hn Hpr Hc Hi.
    rewrite (analyze_product_invokes _ _ _ _ _ _ _ _ Hb Hp Hn Hpr Hc), Hi.
    reflexivity.
  - intros api_key model_choice p_name cost price biz_model platform e Hk Hi.
    unfold on_start. cbn [truthy]. apply String.eqb_neq in Hk. rewrite Hk.
    cbn [negb].
    erewrite analyze_product_invokes;
      [ rewrite Hi; reflexivity
      | repeat first [ rewrite lookup_insert_eq
                     | rewrite lookup_insert_ne by discriminate ];
        reflexivity .. ].
Qed.

End CredentialFacts.

(** C8, as stated, fails: with an empty credential, and with a credential
    the provider rejects, [evaluate] raises the error of the provider, whose
    kind is not [ConfigurationError]; the handler, for an empty credential,
    raises nothing and displays a message. *)
Lemma no_configuration_error :
  @analyze_product mini_decoder demo_provider demo_input ""
     "OpenAI (GPT-4o)"
    = Raise (mkExc "AuthenticationError" "No API key provided")
  /\ @analyze_product mini_decoder demo_provider demo_input "sk-wrong"
       "OpenAI (GPT-4o)"
     = Raise (mkExc "AuthenticationError" "Incorrect API key provided")
  /\ exc_type (mkExc "AuthenticationError" "No API key provided")
     <> "ConfigurationError"
  /\ @on_start mini_decoder demo_provider demo_dashboard true ""
       "OpenAI (GPT-4o)" "Red Light Therapy Belt" 28 129 "Private Label"
       "Shopify"
     = [ st_error "Please enter your OpenAI (GPT-4o) API Key in the sidebar." ].
Proof.
  split; [vm_compute; reflexivity|]. split; [vm_compute; reflexivity|].
  split; [discriminate|]. vm_compute; reflexivity.
Qed.

Lemma credential_handling_witness :
  (exists engine,
     EvalyEngine_init demo_input "" "OpenAI (GPT-4o)" = Ok engine
     /\ credential_of (llm engine) = "")
  /\ @analyze_product mini_decoder demo_provider demo_input "sk-wrong"
       "Anthropic (Claude 3.5 Sonnet)"
     = Raise (mkExc "AuthenticationError" "Incorrect API key provided")
  /\ @on_start mini_decoder demo_provider demo_dashboard true "sk-wrong"
       "Anthropic (Claude 3.5 Sonnet)" "Red Light Therapy Belt" 28 129
       "Private Label" "Shopify"
     = [ st_error "An error occurred: Incorrect API key provided";
         st_warning
           "Make sure your API Key is correct and has access to the selected model." ].
Proof.
  destruct (@credential_handling mini_decoder demo_provider demo_dashboard)
    as (_ & Hinit & Hraise & Hshow).
  split; [|split].
  - apply Hinit; eexists; reflexivity.
  - apply (Hraise demo_input "sk-wrong" "Anthropic (Claude 3.5 Sonnet)"
             (PyStr "Private Label") (PyStr "Shopify")
             (PyStr "Red Light Therapy Belt") (PyFloat 129) (PyFloat 28));
      reflexivity.
  - apply (Hshow "sk-wrong" "Anthropic (Claude 3.5 Sonnet)"
             "Red Light Therapy Belt" 28%float 129%float "Private Label"
             "Shopify" (mkExc "AuthenticationError" "Incorrect API key provided"));
      [discriminate|reflexivity].
Defined.

(** * Further properties of the connector *)

Section ConnectorMore.
Context {world : Type} {SDK : ShopifySDK world} {builtins : PyBuiltins}.

Ltac run_body :=
  cbv [try_except mbind M_bind bind call mret M_ret ret print get_self
       set_session lift].

Ltac read_key :=
  repeat first
    [ rewrite lookup_insert_eq
    | rewrite lookup_insert_ne by discriminate ];
  try reflexivity.

(** ** [connect] *)


(** X2: when [connect] returns [False] it has printed one line,
    [Connection error: ] and the text of the exception; a session object
    created before the failure stays in [self.session], and a connector
    whose session could not be created keeps the session it had. *)
Theorem connect_false_prints (st : state) :
  (connect st).1 = Ok false ->
  (exists e,
     stdout (connect st).2
     = (stdout st ++ ["Connection error: " +:+ exc_str e])%list)
  /\ (forall s w1,
        Session_new (shop_url (self st)) (api_version (self st))
                    (access_token (self st)) (sdk st) = (Ok s, w1) ->
        session (self (connect st).2) = Some s)
  /\ (forall e w1,
        Session_new (shop_url (self st)) (api_version (self st))
                    (access_token (self st)) (sdk st) = (Raise e, w1) ->
        session (self (connect st).2) = session (self st)).
Proof.
  unfold connect. run_body. cbn [self sdk stdout].
  destruct (Session_new _ _ _ (sdk st)) as [[s|e] w1] eqn:E1; cbn.
  2:{ intros _. split; [eauto|]. split; [discriminate|reflexivity]. }
  destruct (activate_session s w1) as [[[]|e] w2] eqn:E2; cbn.
  2:{ intros _. split; [eauto|]. split; [|discriminate].
      intros ? ? [= <- <-]. reflexivity. }
  destruct (Shop_current w2) as [[sh|e] w3] eqn:E3; cbn; [discriminate|].
  intros _. split; [eauto|]. split; [|discriminate].
  intros ? ? [= <- <-]. reflexivity.
Qed.

(** ** [disconnect] *)

(** X3: on a connector that holds no session [disconnect] does nothing, not
    even a call into the SDK; on one that holds a session it clears the
    session of the SDK and forgets its own, prints nothing, and a second
    [disconnect] then does nothing. *)
Theorem disconnect_idempotent (st : state) :
  (session (self st) = None -> disconnect st = (Ok tt, st))
  /\ (forall w,
        is_Some (session (self st)) ->
        clear_session (sdk st) = (Ok tt, w) ->
        (disconnect st).1 = Ok tt
        /\ session (self (disconnect st).2) = None
        /\ sdk (disconnect st).2 = w
        /\ stdout (disconnect st).2 = stdout st
        /\ disconnect (disconnect st).2 = (Ok tt, (disconnect st).2)).
Proof.
  unfold disconnect. run_body. split.
  - intros ->. reflexivity.
  - intros w [s Hs] Hc. rewrite Hs. cbn. rewrite Hc. cbn. auto.
Qed.

(** X4: [disconnect] is not guarded: when the SDK fails to clear the
    session the exception leaves [disconnect], and the connector still
    holds its session. *)
Theorem disconnect_propagates (st : state) (e : PyException) (w : world) :
  is_Some (session (self st)) ->
  clear_session (sdk st) = (Raise e, w) ->
  (disconnect st).1 = Raise e
  /\ self (disconnect st).2 = self st
  /\ sdk (disconnect st).2 = w.
Proof.
  intros [s Hs] Hc. unfold disconnect. run_body. rewrite Hs. cbn.
  rewrite Hc. cbn. auto.
Qed.

(** ** [test_connection], outcome by outcome *)

(** X5: when every call succeeds, [test_connection] answers [True] with the
    name of the shop; the session was opened for the normalized shop URL,
    the API version [2024-01] and the token given, it is closed again, and
    nothing is printed. *)
Theorem test_connection_success (url token : string) (w : world)
    (out : list string) (s : Session) (sh0 sh : Shop.t) (w1 w2 w3 w4 w5 : world) :
  Session_new (normalize_shop_url url) "2024-01" token w = (Ok s, w1) ->
  activate_session s w1 = (Ok tt, w2) ->
  Shop_current w2 = (Ok sh0, w3) ->
  Shop_current w3 = (Ok sh, w4) ->
  clear_session w4 = (Ok tt, w5) ->
  test_connection url token w out
  = (Ok (true, "✅ Connected to " +:+ py_str (Shop.name sh)),
     mkState (mkConnector (normalize_shop_url url) token "2024-01" None)
             w5 out).
Proof.
  intros H1 H2 H3 H4 H5.
  unfold test_connection, connect, get_shop_info, disconnect. run_body.
  cbn [self sdk stdout ShopifyConnector_init shop_url access_token
       api_version session].
  rewrite H1. cbn. rewrite H2. cbn. rewrite H3. cbn. rewrite H4. cbn.
  rewrite H5. cbn.
  rewrite bool_decide_eq_false_2 by apply insert_non_empty. cbn.
  unfold getitem. rewrite lookup_insert_eq. reflexivity.
Qed.

(** X6: a failure to close the session turns a connection that worked into
    [False] with [Connection error: ] and the text of the exception,
    whether or not the shop information had been fetched. *)
Theorem test_connection_disconnect_failure (url token : string) (w : world)
    (out : list string) (s : Session) (sh0 : Shop.t) (r : result Shop.t)
    (e : PyException) (w1 w2 w3 w4 w5 : world) :
  Session_new (normalize_shop_url url) "2024-01" token w = (Ok s, w1) ->
  activate_session s w1 = (Ok tt, w2) ->
  Shop_current w2 = (Ok sh0, w3) ->
  Shop_current w3 = (r, w4) ->
  clear_session w4 = (Raise e, w5) ->
  (test_connection url token w out).1
  = Ok (false, "❌ Connection error: " +:+ exc_str e).
Proof.
  intros H1 H2 H3 H4 H5.
  unfold test_connection, connect, get_shop_info, disconnect. run_body.
  cbn [self sdk stdout ShopifyConnector_init shop_url access_token
       api_version session].
  rewrite H1. cbn. rewrite H2. cbn. rewrite H3. cbn. rewrite H4.
  destruct r as [sh|e0]; cbn; rewrite H5; reflexivity.
Qed.

(** X7: when the connection is made but the shop information cannot be
    fetched, [test_connection] still answers [True], with the message that
    names no shop, and the failure is only printed. *)
Theorem test_connection_without_shop_info (url token : string) (w : world)
    (out : list string) (s : Session) (sh0 : Shop.t) (e : PyException)
    (w1 w2 w3 w4 w5 : world) :
  Session_new (normalize_shop_url url) "2024-01" token w = (Ok s, w1) ->
  activate_session s w1 = (Ok tt, w2) ->
  Shop_current w2 = (Ok sh0, w3) ->
  Shop_current w3 = (Raise e, w4) ->
  clear_session w4 = (Ok tt, w5) ->
  (test_connection url token w out).1 = Ok (true, "✅ Connection successful")
  /\ stdout (test_connection url token w out).2
     = (out ++ ["Error fetching shop info: " +:+ exc_str e])%list.
Proof.
  intros H1 H2 H3 H4 H5.
  unfold test_connection, connect, get_shop_info, disconnect. run_body.
  cbn [self sdk stdout ShopifyConnector_init shop_url access_token
       api_version session].
  rewrite H1. cbn. rewrite H2. cbn. rewrite H3. cbn. rewrite H4. cbn.
  rewrite H5. cbn. auto.
Qed.

End ConnectorMore.

(** * Further properties of the catalogue operations *)

Section CatalogMore.
Context {world : Type} {SDK : ShopifySDK world} {builtins : PyBuiltins}.

Ltac run_body :=
  cbv [try_except mbind M_bind bind call mret M_ret ret print get_self
       set_session lift].

Ltac read_key :=
  repeat first
    [ rewrite lookup_insert_eq
    | rewrite lookup_insert_ne by discriminate ];
  try reflexivity.

Lemma for_each_raise (f : Product.t -> result (gmap string pyval))
    (ps : list Product.t) (p : Product.t) (e : PyException) :
  p ∈ ps -> f p = Raise e -> exists e', for_each f ps = Raise e'.
Proof.
  intros Hin Hf. induction Hin as [p ps|p q ps Hin IH]; cbn [for_each].
  - rewrite Hf. eexists; reflexivity.
  - destruct (f q) as [d|e1]; [|eexists; reflexivity].
    destruct (IH Hf) as [e' ->]. eexists; reflexivity.
Qed.

Lemma for_each_ok (f : Product.t -> result (gmap string pyval))
    (ps : list Product.t) :
  (forall p, p ∈ ps -> exists d, f p = Ok d) ->
  exists ds, for_each f ps = Ok ds.
Proof.
  induction ps as [|p ps IH]; intros Hall; cbn [for_each].
  - eexists; reflexivity.
  - destruct (Hall p) as [d ->]; [left|].
    destruct IH as [ds ->]; [intros q Hq; apply Hall; right; exact Hq|].
    eexists; reflexivity.
Qed.

Lemma for_each_lookup (f : Product.t -> result (gmap string pyval))
    (ps : list Product.t) (ds : list (gmap string pyval)) :
  for_each f ps = Ok ds ->
  length ds = length ps
  /\ forall i p, ps !! i = Some p -> exists d, ds !! i = Some d /\ f p = Ok d.
Proof.
  revert ds. induction ps as [|p ps IH]; intros ds; cbn [for_each].
  - intros [= <-]. split; [reflexivity|]. intros i q Hq. discriminate.
  - destruct (f p) as [d|e] eqn:Hf; [|discriminate].
    destruct (for_each f ps) as [ds'|e]; [|discriminate].
    intros [= <-]. destruct (IH ds' eq_refl) as [Hlen Hget].
    split; [cbn; f_equal; exact Hlen|].
    intros [|i] q Hq; cbn in Hq.
    + injection Hq as <-. exists d. split; [reflexivity|exact Hf].
    + apply Hget, Hq.
Qed.

(** X8: [get_products] is all or nothing: when the dictionary of a single
    fetched product cannot be built, the products that could be mapped are
    dropped with it: the result is the empty list and one line is printed. *)
Theorem get_products_all_or_nothing (st : state) (limit : Z)
    (ps : list Product.t) (p : Product.t) (e : PyException) :
  (Product_find_limit limit (sdk st)).1 = Ok ps ->
  p ∈ ps ->
  product_data (shop_url (self st)) p = Raise e ->
  (get_products limit st).1 = Ok []
  /\ exists e',
       stdout (get_products limit st).2
       = (stdout st ++ ["Error fetching products: " +:+ exc_str e'])%list.
Proof.
  intros Hr Hin Hp. unfold get_products. run_body.
  destruct (Product_find_limit limit (sdk st)) as [r w]. cbn in Hr. subst r.
  cbn [self]. destruct (for_each_raise _ _ _ _ Hin Hp) as [e' ->].
  split; [reflexivity|]. exists e'. reflexivity.
Qed.

(** X9: a product whose first variant has no price ([None]) cannot be
    mapped, [float] raising [TypeError]: [get_product_by_id] reports it as
    [None], as it reports a product that does not exist. *)
Theorem unpriced_product_is_not_found (st : state) (product_id : Z)
    (product : Product.t) (v : Variant.t) (rest : list Variant.t) :
  (Product_find_id product_id (sdk st)).1 = Ok product ->
  Product.variants product = v :: rest ->
  Variant.price v = PyNone ->
  (exists e, product_data (shop_url (self st)) product = Raise e
             /\ exc_type e = "TypeError")
  /\ (get_product_by_id product_id st).1 = Ok None.
Proof.
  intros Hr Hv Hp.
  assert (Hd : exists e, product_data (shop_url (self st)) product = Raise e
                         /\ exc_type e = "TypeError").
  { unfold product_data, first_variant. rewrite Hv. cbv [price_of].
    rewrite Hp. eexists; split; reflexivity. }
  split; [exact Hd|]. destruct Hd as (e & Hd & _).
  unfold get_product_by_id. run_body.
  destruct (Product_find_id product_id (sdk st)) as [r w]. cbn in Hr. subst r.
  cbn [self]. rewrite Hd. reflexivity.
Qed.

(** X10: when every fetched product can be mapped, [get_products] returns
    one dictionary for each product the SDK returned, in the order of the
    SDK; the connector does not cut the list to [limit] itself. *)
Theorem get_products_keeps_order (st : state) (limit : Z)
    (ps : list Product.t) :
  (Product_find_limit limit (sdk st)).1 = Ok ps ->
  (forall p, p ∈ ps -> exists d, product_data (shop_url (self st)) p = Ok d) ->
  exists ds,
    (get_products limit st).1 = Ok ds
    /\ length ds = length ps
    /\ forall i p, ps !! i = Some p ->
         exists d, ds !! i = Some d
           /\ product_data (shop_url (self st)) p = Ok d
           /\ d !! "id" = Some (Product.id p)
           /\ d !! "name" = Some (Product.title p)
           /\ d !! "handle" = Some (Product.handle p).
Proof.
  intros Hr Hall. destruct (for_each_ok _ _ Hall) as [ds Hds].
  exists ds. destruct (for_each_lookup _ _ _ Hds) as [Hlen Hget].
  split; [|split; [exact Hlen|]].
  - unfold get_products. run_body.
    destruct (Product_find_limit limit (sdk st)) as [r w]. cbn in Hr. subst r.
    cbn [self]. rewrite Hds. reflexivity.
  - intros i p Hi. destruct (Hget i p Hi) as (d & Hd & Hp).
    exists d. split; [exact Hd|]. split; [exact Hp|].
    revert Hp. unfold product_data.
    destruct (price_of (first_variant p)) as [f|e]; [|discriminate].
    destruct (compare_at_price_of (first_variant p)) as [c|e]; [|discriminate].
    cbv [mbind result_bind rbind mret result_ret].
    intros [= <-]. repeat split; read_key.
Qed.

(** X11: the dictionary of [get_products] and [get_product_by_id] has the
    same fifteen keys for every product; the dictionary of
    [search_products] has six, and lacks among others [url], [handle] and
    [image_url]. *)
Theorem dictionary_keys (domain : string) (product : Product.t)
    (d : gmap string pyval) :
  (product_data domain product = Ok d ->
   dom d = list_to_set
     [ "id"; "name"; "price"; "compare_at_price"; "sku";
       "inventory_quantity"; "product_type"; "vendor"; "tags"; "status";
       "created_at"; "image_url"; "variants_count"; "handle"; "url" ])
  /\ (search_data product = Ok d ->
      dom d = list_to_set [ "id"; "name"; "price"; "sku"; "vendor"; "status" ]
      /\ d !! "url" = None /\ d !! "handle" = None /\ d !! "image_url" = None).
Proof.
  split.
  - unfold product_data.
    destruct (price_of (first_variant product)) as [f|e]; [|discriminate].
    destruct (compare_at_price_of (first_variant product)) as [c|e];
      [|discriminate].
    cbv [mbind result_bind rbind mret result_ret]. intros [= <-].
    rewrite !dom_insert_L, dom_empty_L. reflexivity.
  - unfold search_data.
    destruct (price_of (first_variant product)) as [f|e]; [|discriminate].
    cbv [mbind result_bind rbind mret result_ret]. intros [= <-].
    split; [rewrite !dom_insert_L, dom_empty_L; reflexivity|].
    repeat split;
      repeat (rewrite lookup_insert_ne by discriminate); apply lookup_empty.
Qed.

(** X12: the four catalogue operations leave the connector as it is,
    session included; they print at most one line, after what was printed
    before. *)
Theorem catalog_operations_keep_connector (st : state) :
  (forall limit,
     self (get_products limit st).2 = self st
     /\ exists tail, stdout (get_products limit st).2 = (stdout st ++ tail)%list
                     /\ length tail <= 1)
  /\ (forall product_id,
        self (get_product_by_id product_id st).2 = self st
        /\ exists tail,
             stdout (get_product_by_id product_id st).2
             = (stdout st ++ tail)%list /\ length tail <= 1)
  /\ (forall query limit,
        self (search_products query limit st).2 = self st
        /\ exists tail,
             stdout (search_products query limit st).2
             = (stdout st ++ tail)%list /\ length tail <= 1)
  /\ (self (get_shop_info st).2 = self st
      /\ exists tail, stdout (get_shop_info st).2 = (stdout st ++ tail)%list
                      /\ length tail <= 1).
Proof.
  assert (Hnil : forall l : list string, l = (l ++ [])%list)
    by (intros l; rewrite app_nil_r; reflexivity).
  split; [|split; [|split]].
  - intros limit. unfold get_products. run_body.
    destruct (Product_find_limit limit (sdk st)) as [[ps|e] w]; cbn [self sdk stdout].
    + destruct (for_each _ ps) as [ds|e]; cbn;
        (split; [reflexivity|]); eexists; split; try apply Hnil;
        try reflexivity; cbn; lia.
    + cbn. split; [reflexivity|]. eexists; split; [reflexivity|cbn; lia].
  - intros product_id. unfold get_product_by_id. run_body.
    destruct (Product_find_id product_id (sdk st)) as [[p|e] w];
      cbn [self sdk stdout].
    + destruct (product_data _ p) as [d|e]; cbn;
        (split; [reflexivity|]); eexists; split; try apply Hnil;
        try reflexivity; cbn; lia.
    + cbn. split; [reflexivity|]. eexists; split; [reflexivity|cbn; lia].
  - intros query limit. unfold search_products. run_body.
    destruct (Product_find_title query limit (sdk st)) as [[ps|e] w];
      cbn [self sdk stdout].
    + destruct (for_each _ ps) as [ds|e]; cbn;
        (split; [reflexivity|]); eexists; split; try apply Hnil;
        try reflexivity; cbn; lia.
    + cbn. split; [reflexivity|]. eexists; split; [reflexivity|cbn; lia].
  - unfold get_shop_info. run_body.
    destruct (Shop_current (sdk st)) as [[sh|e] w]; cbn;
      (split; [reflexivity|]); eexists; split; try apply Hnil;
      try reflexivity; cbn; lia.
Qed.

End CatalogMore.

(** * Further properties of the shop identifier *)

Section NormalizeMore.
Local Arguments String.append !_ _ / : simpl nomatch.

Lemma contains_dot_suffix (t : string) :
  PyStr.contains "." (t +:+ ".myshopify.com") = true.
Proof.
  induction t as [|c t IH]; [reflexivity|].
  cbn [String.append]. apply contains_tail, IH.
Qed.

(** X13: whatever the caller passes, the shop URL the constructor stores
    contains a dot, and so is not empty: a host without a dot never reaches
    the SDK or a product URL. *)
Theorem stored_shop_url_has_dot (url token : string) :
  PyStr.contains "." (shop_url (ShopifyConnector_init url token)) = true
  /\ shop_url (ShopifyConnector_init url token) <> "".
Proof.
  assert (Hd : PyStr.contains "." (normalize_shop_url url) = true).
  { rewrite normalize_of_stripped.
    destruct (PyStr.contains "." (strip_schemes url)) eqn:Hc;
      [exact Hc|apply contains_dot_suffix]. }
  split; [exact Hd|]. cbn [ShopifyConnector_init shop_url].
  intros Hn. rewrite Hn in Hd. discriminate.
Qed.

End NormalizeMore.

(** * Further properties of the engine *)

(** X14: the constructor of the engine needs the fields [business_model]
    and [platform] of the product data and no other: it returns an engine
    exactly when both are present, and raises [KeyError] when one is
    missing, whatever the provider and the credential. *)
Theorem engine_init_needs_two_fields (input_data : gmap string pyval)
    (api_key provider : string) :
  ((exists engine, EvalyEngine_init input_data api_key provider = Ok engine)
   <-> is_Some (input_data !! "business_model")
       /\ is_Some (input_data !! "platform"))
  /\ (~ (is_Some (input_data !! "business_model")
         /\ is_Some (input_data !! "platform")) ->
      exists e, EvalyEngine_init input_data api_key provider = Raise e
                /\ exc_type e = "KeyError").
Proof.
  unfold EvalyEngine_init, getitem.
  destruct (input_data !! "business_model") as [bm|] eqn:Hb; cbn.
  - destruct (input_data !! "platform") as [pf|] eqn:Hp; cbn.
    + split.
      * split; [intros _; split; eexists; reflexivity|].
        intros _. eexists; reflexivity.
      * intros Hn. exfalso. apply Hn. split; eexists; reflexivity.
    + split.
      * split; [intros [engine He]; discriminate|].
        intros [_ [x Hx]]. discriminate.
      * intros _. eexists; split; reflexivity.
  - split.
    + split; [intros [engine He]; discriminate|].
      intros [[x Hx] _]. discriminate.
    + intros _. eexists; split; reflexivity.
Qed.

(** X15: [run_analysis] reads [name], [price] and [cost] before it calls the
    model: when one of them is missing, [analyze_product] raises [KeyError],
    the same for every provider and every decoder, so no request is made. *)
Theorem analysis_needs_product_fields (input_data : gmap string pyval)
    (api_key provider : string) :
  is_Some (input_data !! "business_model") ->
  is_Some (input_data !! "platform") ->
  input_data !! "name" = None \/ input_data !! "price" = None
    \/ input_data !! "cost" = None ->
  exists e,
    exc_type e = "KeyError"
    /\ forall (decoder : JsonDecoder) (backend : Provider),
         @analyze_product decoder backend input_data api_key provider
         = Raise e.
Proof.
  intros [bm Hb] [pf Hp] Hmiss.
  unfold analyze_product, EvalyEngine_init, run_analysis, getitem.
  rewrite Hb, Hp. cbn.
  destruct (input_data !! "name") as [name|] eqn:Hn; cbn;
    [|eexists; split; [|intros; reflexivity]; reflexivity].
  destruct (input_data !! "price") as [price|] eqn:Hpr; cbn;
    [|eexists; split; [|intros; reflexivity]; reflexivity].
  destruct (input_data !! "cost") as [cost|] eqn:Hc; cbn;
    [|eexists; split; [|intros; reflexivity]; reflexivity].
  destruct Hmiss as [H|[H|H]]; discriminate.
Qed.

Section EngineMore.
Context {decoder : JsonDecoder} {backend : Provider}.

(** X16: with the five fields present, [analyze_product] sends one prompt,
    made of these fields and of the three schemas, to the adapter the router
    chose; when the answer decodes to an object that has the three top-level
    keys it returns that object as it is, and when the answer does not
    decode it raises [OutputParserException]. *)
Theorem evaluate_end_to_end (input_data : gmap string pyval)
    (api_key provider : string) (bm pf name price cost : pyval)
    (text : string) :
  input_data !! "business_model" = Some bm ->
  input_data !! "platform" = Some pf ->
  input_data !! "name" = Some name ->
  input_data !! "price" = Some price ->
  input_data !! "cost" = Some cost ->
  invoke (model_router provider api_key)
         (mkPrompt bm pf name price cost response_schemas) = Ok text ->
  (forall o,
     parse_json_markdown text = Some (JObject o) ->
     is_Some (o !! "verdict") -> is_Some (o !! "action_plan") ->
     is_Some (o !! "scores") ->
     analyze_product input_data api_key provider = Ok (JObject o))
  /\ (parse_json_markdown text = None ->
      exists e, analyze_product input_data api_key provider = Raise e
                /\ exc_type e = "OutputParserException").
Proof.
  intros Hb Hp Hn Hpr Hc Hi.
  rewrite (analyze_product_invokes _ _ _ _ _ _ _ _ Hb Hp Hn Hpr Hc), Hi.
  cbn. unfold parse. split.
  - intros o -> H1 H2 H3. rewrite expected_keys.
    apply check_keys_object_present. repeat constructor; assumption.
  - intros ->. eexists; split; reflexivity.
Qed.

End EngineMore.

(** X17: the router compares the whole provider string: the Google adapter
    is built exactly for [Google (Gemini 1.5 Pro)], the Anthropic adapter
    exactly for [Anthropic (Claude 3.5 Sonnet)], and every other string gets
    the OpenAI adapter; whatever the string, the temperature is 0 and the
    credential is the one given. *)
Theorem router_is_exact (provider api_key : string) :
  temperature_of (model_router provider api_key) = 0%float
  /\ credential_of (model_router provider api_key) = api_key
  /\ (model_router provider api_key
      = ChatGoogleGenerativeAI 0 "gemini-1.5-pro" api_key
      <-> provider = "Google (Gemini 1.5 Pro)")
  /\ (model_router provider api_key
      = ChatAnthropic 0 "claude-3-5-sonnet-20240620" api_key
      <-> provider = "Anthropic (Claude 3.5 Sonnet)")
  /\ (model_router provider api_key = ChatOpenAI 0 "gpt-4o" api_key
      <-> provider <> "Google (Gemini 1.5 Pro)"
          /\ provider <> "Anthropic (Claude 3.5 Sonnet)").
Proof.
  unfold model_router.
  destruct (String.eqb_spec provider "OpenAI (GPT-4o)") as [->|H1].
  { cbn. repeat split; try discriminate; try reflexivity.
    all: intros [H _]; discriminate. }
  destruct (String.eqb_spec provider "Google (Gemini 1.5 Pro)") as [->|H2].
  { cbn. repeat split; try discriminate; try reflexivity.
    all: intros [H _]; congruence. }
  destruct (String.eqb_spec provider "Anthropic (Claude 3.5 Sonnet)")
    as [->|H3].
  { cbn. repeat split; try discriminate; try reflexivity.
    all: intros [_ H]; congruence. }
  cbn. repeat split; try discriminate; try reflexivity; try assumption;
    intros; congruence.
Qed.

Section HandlerMore.
Context {decoder : JsonDecoder} {backend : Provider} {dashboard : Dashboard}.

(** X18: the handler reports every failure of the analysis in the same way:
    an answer of the model that does not decode is displayed as a generic
    error followed by the advice to check the API key, although the key was
    accepted. *)
Theorem handler_blames_key_for_bad_answer
    (api_key model_choice p_name : string) (cost price : float)
    (biz_model platform text : string) :
  api_key <> "" ->
  invoke (model_router model_choice api_key)
         (mkPrompt (PyStr biz_model) (PyStr platform) (PyStr p_name)
                   (PyFloat price) (PyFloat cost) response_schemas)
    = Ok text ->
  parse_json_markdown text = None ->
  exists e,
    exc_type e = "OutputParserException"
    /\ on_start true api_key model_choice p_name cost price biz_model platform
       = [ st_error ("An error occurred: " +:+ exc_str e);
           st_warning
             "Make sure your API Key is correct and has access to the selected model." ].
Proof.
  intros Hk Hi Hd. unfold on_start. cbn [truthy].
  apply String.eqb_neq in Hk. rewrite Hk. cbn [negb].
  erewrite analyze_product_invokes;
    [ rewrite Hi; cbn; unfold parse; rewrite Hd;
      eexists; (split; [|reflexivity]); reflexivity
    | repeat first [ rewrite lookup_insert_eq
                   | rewrite lookup_insert_ne by discriminate ];
      reflexivity .. ].
Qed.

End HandlerMore.

(** * Properties of the display *)

(** X19: the banner is green exactly for the verdicts [GREENLIGHT] and [GO],
    amber exactly for [FIX], and red for every other value: [KILL], a
    verdict in another spelling, or a value that is not a string. *)
Theorem verdict_color_cases (verdict : json) :
  (verdict_color verdict = "#28a745"
   <-> verdict = JString "GREENLIGHT" \/ verdict = JString "GO")
  /\ (verdict_color verdict = "#ffc107" <-> verdict = JString "FIX")
  /\ (verdict_color verdict = "#dc3545"
      <-> verdict <> JString "GREENLIGHT" /\ verdict <> JString "GO"
          /\ verdict <> JString "FIX").
Proof.
  unfold verdict_color.
  destruct verdict as [| b | z | f | t | l | o];
    try (cbn; repeat split; try discriminate; intros; intuition discriminate).
  cbn [existsb json_eq_str].
  destruct (String.eqb_spec t "FIX") as [->|Hf].
  { cbn. repeat split; try discriminate; try reflexivity;
      intros; intuition (try discriminate; try congruence). }
  destruct (String.eqb_spec t "GREENLIGHT") as [->|Hg].
  { cbn. repeat split; try discriminate; try reflexivity; auto;
      intros; intuition (try discriminate; try congruence). }
  destruct (String.eqb_spec t "GO") as [->|Ho].
  { cbn. repeat split; try discriminate; try reflexivity; auto;
      intros; intuition (try discriminate; try congruence). }
  cbn. repeat split; try discriminate; try reflexivity;
    intros; intuition (try discriminate; try congruence).
Qed.

Section DisplayFacts.

Ltac run_display := cbv [mbind D_bind mret D_ret eval emit].

(** A cell whose entry has both fields displays a metric and a caption. *)
Lemma metric_cell_ok (sc e : gmap string json) (score insight : json)
    (column : nat) (label key : string) (ws : list st_widget) :
  sc !! key = Some (JObject e) ->
  e !! "score" = Some score ->
  e !! "insight" = Some insight ->
  metric_cell (JObject sc) column label key ws
  = (Ok tt,
     (ws ++ [ st_metric column label [Val score; Lit "/10"] insight;
              st_caption column insight ])%list).
Proof.
  intros Hk Hs Hi. unfold metric_cell. run_display. cbn [json_getitem].
  rewrite Hk. cbn [json_getitem]. rewrite Hs, Hi.
  rewrite <- app_assoc. reflexivity.
Qed.

(** A cell that cannot read its entry displays nothing. *)
Lemma metric_cell_cases (scores : json) (column : nat) (label key : string)
    (ws : list st_widget) :
  (exists entry score insight,
     json_getitem scores key = Ok entry
     /\ metric_cell scores column label key ws
        = (Ok tt,
           (ws ++ [ st_metric column label [Val score; Lit "/10"] insight;
                    st_caption column insight ])%list))
  \/ (exists e,
        metric_cell scores column label key ws = (Raise e, ws)
        /\ (exc_type e = "KeyError" \/ exc_type e = "TypeError")).
Proof.
  assert (Hty : forall v k e, json_getitem v k = Raise e ->
                  exc_type e = "KeyError" \/ exc_type e = "TypeError").
  { intros v k e. destruct v as [| | | | | |o]; cbn;
      try (intros [= <-]; right; reflexivity).
    destruct (o !! k); [discriminate|]. intros [= <-]. left; reflexivity. }
  unfold metric_cell. run_display.
  destruct (json_getitem scores key) as [entry|e] eqn:He;
    [|right; exists e; split; [reflexivity|exact (Hty _ _ _ He)]].
  destruct (json_getitem entry "score") as [score|e] eqn:Hs;
    [|right; exists e; split; [reflexivity|exact (Hty _ _ _ Hs)]].
  destruct (json_getitem entry "insight") as [insight|e] eqn:Hi;
    [|right; exists e; split; [reflexivity|exact (Hty _ _ _ Hi)]].
  left. exists entry, score, insight. split; [reflexivity|].
  rewrite <- app_assoc. reflexivity.
Qed.

Lemma bullets_ok (items : list json) (ws : list st_widget) :
  bullets items ws
  = (Ok tt,
     (ws ++ ((fun item => st_markdown [Lit "- "; Val item] false) <$> items))%list).
Proof.
  revert ws. induction items as [|item items IH]; intros ws; cbn [bullets].
  - cbn. rewrite app_nil_r. reflexivity.
  - run_display. rewrite IH. rewrite <- app_assoc. reflexivity.
Qed.

Lemma omap_bullets (items : list json) :
  omap bullet_of ((fun item => st_markdown [Lit "- "; Val item] false) <$> items)
  = items.
Proof.
  induction items as [|item items IH]; [reflexivity|].
  cbn. f_equal. exact IH.
Qed.

Lemma omap_metric_bullets (items : list json) :
  omap metric_of ((fun item => st_markdown [Lit "- "; Val item] false) <$> items)
  = [].
Proof. induction items as [|item items IH]; [reflexivity|exact IH]. Qed.

(** The display of a result whose [scores] has the nine entries, each with
    a [score] and an [insight], once the first action and the items of the
    action plan are known. *)
Lemma render_complete (o sc : gmap string json)
    (verdict plan first_action : json) (items : list json) :
  o !! "verdict" = Some verdict ->
  o !! "action_plan" = Some plan ->
  json_first plan = Ok first_action ->
  json_iter plan = Ok items ->
  o !! "scores" = Some (JObject sc) ->
  (forall key, key ∈ criteria ->
     exists e score insight,
       sc !! key = Some (JObject e)
       /\ e !! "score" = Some score /\ e !! "insight" = Some insight) ->
  exists ws,
    @render evaly_dashboard (JObject o) = (ws, None)
    /\ head ws
       = Some (st_markdown
                 (banner (verdict_color verdict) verdict first_action) true)
    /\ Forall2 (shown_for sc) criteria (omap metric_of ws)
    /\ omap bullet_of ws = items.
Proof.
  intros Hv Hp Hf Hit Hs Hall.
  assert (Hk : forall key, key ∈ criteria ->
            exists e score insight,
              sc !! key = Some (JObject e)
              /\ e !! "score" = Some score /\ e !! "insight" = Some insight
              /\ forall column label ws,
                   metric_cell (JObject sc) column label key ws
                   = (Ok tt,
                      (ws ++ [ st_metric column label [Val score; Lit "/10"]
                                 insight;
                               st_caption column insight ])%list)).
  { intros key Hin. destruct (Hall key Hin) as (e & score & insight & H1 & H2 & H3).
    exists e, score, insight. repeat split; try assumption.
    intros. apply metric_cell_ok with (e := e); assumption. }
  unfold criteria in Hk.
  destruct (Hk "margin") as (e1 & s1 & i1 & Ha1 & Hb1 & Hc1 & Hm1);
    [rewrite !elem_of_cons; auto 12|].
  destruct (Hk "platform_fit") as (e2 & s2 & i2 & Ha2 & Hb2 & Hc2 & Hm2);
    [rewrite !elem_of_cons; auto 12|].
  destruct (Hk "trend") as (e3 & s3 & i3 & Ha3 & Hb3 & Hc3 & Hm3);
    [rewrite !elem_of_cons; auto 12|].
  destruct (Hk "competition") as (e4 & s4 & i4 & Ha4 & Hb4 & Hc4 & Hm4);
    [rewrite !elem_of_cons; auto 12|].
  destruct (Hk "content") as (e5 & s5 & i5 & Ha5 & Hb5 & Hc5 & Hm5);
    [rewrite !elem_of_cons; auto 12|].
  destruct (Hk "shipping") as (e6 & s6 & i6 & Ha6 & Hb6 & Hc6 & Hm6);
    [rewrite !elem_of_cons; auto 12|].
  destruct (Hk "scalability") as (e7 & s7 & i7 & Ha7 & Hb7 & Hc7 & Hm7);
    [rewrite !elem_of_cons; auto 12|].
  destruct (Hk "brand") as (e8 & s8 & i8 & Ha8 & Hb8 & Hc8 & Hm8);
    [rewrite !elem_of_cons; auto 12|].
  destruct (Hk "risk") as (e9 & s9 & i9 & Ha9 & Hb9 & Hc9 & Hm9);
    [rewrite !elem_of_cons; auto 12|].
  clear Hk Hall.
  cbn [render evaly_dashboard]. unfold render_result. run_display.
  cbn [json_getitem]. rewrite Hs, Hv, Hp, Hf, Hit.
  rewrite Hm1, Hm2, Hm3, Hm4, Hm5, Hm6, Hm7, Hm8, Hm9.
  rewrite bullets_ok.
  eexists. split; [reflexivity|].
  split; [reflexivity|].
  split.
  - rewrite omap_app, omap_metric_bullets, app_nil_r. cbn.
    unfold criteria, shown_for.
    repeat (constructor; [eexists _, _; cbn; eauto|]). constructor.
  - rewrite omap_app, omap_bullets. reflexivity.
Qed.

End DisplayFacts.


(** X21: an empty action plan, list or string, stops the display before
    anything is shown: reading its first element raises [IndexError], also
    when the nine scores are complete. *)
Theorem display_of_empty_action_plan (o : gmap string json)
    (verdict scores plan : json) :
  o !! "verdict" = Some verdict ->
  o !! "scores" = Some scores ->
  o !! "action_plan" = Some plan ->
  plan = JArray [] \/ plan = JString "" ->
  exists e,
    @render evaly_dashboard (JObject o) = ([], Some e)
    /\ exc_type e = "IndexError".
Proof.
  intros Hv Hs Hp Hplan. cbn [render evaly_dashboard].
  unfold render_result. cbv [mbind D_bind mret D_ret eval emit].
  cbn [json_getitem]. rewrite Hs, Hv, Hp.
  destruct Hplan as [->| ->]; cbn; eexists; split; reflexivity.
Qed.

(** The scorecard stops at the first cell it cannot read. *)
Lemma display_stops_at_missing_criterion_aux (o sc : gmap string json)
    (verdict plan first_action : json) (key : string) :
  o !! "verdict" = Some verdict ->
  o !! "action_plan" = Some plan ->
  json_first plan = Ok first_action ->
  o !! "scores" = Some (JObject sc) ->
  key ∈ criteria ->
  sc !! key = None ->
  exists ws e,
    @render evaly_dashboard (JObject o) = (ws, Some e)
    /\ (exc_type e = "KeyError" \/ exc_type e = "TypeError")
    /\ head ws
       = Some (st_markdown
                 (banner (verdict_color verdict) verdict first_action) true)
    /\ omap bullet_of ws = [].
Proof.
  intros Hv Hp Hf Hs Hin Hnone.
  cbn [render evaly_dashboard]. unfold render_result.
  cbv [mbind D_bind mret D_ret eval emit].
  cbn [json_getitem]. rewrite Hs, Hv, Hp, Hf.
  unfold criteria in Hin. rewrite !elem_of_cons in Hin.
  repeat match goal with
  | |- context [metric_cell ?s ?c ?l ?k ?ws] =>
      let Hget := fresh "Hget" in
      let Hty := fresh "Hty" in
      destruct (metric_cell_cases s c l k ws)
        as [(? & ? & ? & Hget & ->) | (? & -> & Hty)];
      [ cbn [json_getitem] in Hget
      | eexists _, _; split; [reflexivity|]; split; [exact Hty|];
        split; reflexivity ]
  end.
  exfalso.
  destruct Hin as [->|[->|[->|[->|[->|[->|[->|[->|[->|Hin]]]]]]]]];
    try (inversion Hin);
    repeat match goal with
    | H : match sc !! _ with _ => _ end = Ok _ |- _ =>
        rewrite ?Hnone in H; try discriminate; clear H
    end.
Qed.

(** X22: a result the parser accepts can still fail in the display: when
    [scores] is an object that lacks one of the nine criteria, the display
    shows the banner, stops at a cell of the scorecard with [KeyError] (or
    with [TypeError], at an earlier entry that is not an object), and never
    reaches the action plan. *)
Theorem display_stops_at_missing_criterion (o sc : gmap string json)
    (verdict plan first_action : json) (key : string) :
  o !! "verdict" = Some verdict ->
  o !! "action_plan" = Some plan ->
  json_first plan = Ok first_action ->
  o !! "scores" = Some (JObject sc) ->
  key ∈ criteria ->
  sc !! key = None ->
  exists ws e,
    @render evaly_dashboard (JObject o) = (ws, Some e)
    /\ (exc_type e = "KeyError" \/ exc_type e = "TypeError")
    /\ head ws
       = Some (st_markdown
                 (banner (verdict_color verdict) verdict first_action) true)
    /\ omap bullet_of ws = [].
Proof. apply display_stops_at_missing_criterion_aux. Qed.

(** X23: when the action plan is a non-empty string instead of a list, the
    banner shows its first character and the action plan is displayed as
    one bullet for each character. *)
Theorem display_of_string_action_plan (o sc : gmap string json)
    (verdict : json) (s c : string) (cs : list string) :
  o !! "verdict" = Some verdict ->
  o !! "action_plan" = Some (JString s) ->
  py_chars s = c :: cs ->
  o !! "scores" = Some (JObject sc) ->
  (forall key, key ∈ criteria ->
     exists e score insight,
       sc !! key = Some (JObject e)
       /\ e !! "score" = Some score /\ e !! "insight" = Some insight) ->
  exists ws,
    @render evaly_dashboard (JObject o) = (ws, None)
    /\ head ws
       = Some (st_markdown
                 (banner (verdict_color verdict) verdict (JString c)) true)
    /\ omap bullet_of ws = JString <$> (c :: cs).
Proof.
  intros Hv Hp Hc Hs Hall.
  destruct (render_complete o sc verdict (JString s) (JString c)
              (JString <$> (c :: cs)))
    as (ws & Hr & Hh & _ & Hb); try assumption.
  - cbn [json_first]. rewrite Hc. reflexivity.
  - cbn [json_iter]. rewrite Hc. reflexivity.
  - exists ws. auto.
Qed.

(** * The handler with the dashboard of the application *)

Section HandlerDisplay.
Context {decoder : JsonDecoder} {backend : Provider}.

Lemma on_start_renders (api_key model_choice p_name : string)
    (cost price : float) (biz_model platform text : string)
    (o : gmap string json) :
  api_key <> "" ->
  invoke (model_router model_choice api_key)
         (mkPrompt (PyStr biz_model) (PyStr platform) (PyStr p_name)
                   (PyFloat price) (PyFloat cost) response_schemas)
    = Ok text ->
  parse_json_markdown text = Some (JObject o) ->
  is_Some (o !! "verdict") -> is_Some (o !! "action_plan") ->
  is_Some (o !! "scores") ->
  @on_start decoder backend evaly_dashboard true api_key model_choice p_name
            cost price biz_model platform
  = ((shown <$> (@render evaly_dashboard (JObject o)).1)
     ++ match (@render evaly_dashboard (JObject o)).2 with
        | Some e => show_exception e
        | None => []
        end)%list.
Proof.
  intros Hk Hi Hd H1 H2 H3. unfold on_start. cbn [truthy].
  apply String.eqb_neq in Hk. rewrite Hk. cbn [negb].
  erewrite analyze_product_invokes;
    [ rewrite Hi; cbn [mbind result_bind rbind]; unfold parse; rewrite Hd,
        expected_keys;
      rewrite check_keys_object_present by (repeat constructor; assumption);
      destruct (@render evaly_dashboard (JObject o)) as [ws stopped];
      reflexivity
    | repeat first [ rewrite lookup_insert_eq
                   | rewrite lookup_insert_ne by discriminate ];
      reflexivity .. ].
Qed.

(** X24: the whole path of a good answer: with a key entered, when the
    model answers with a text that decodes to an object with the verdict, a
    non-empty list of actions and the nine complete scores, the handler
    displays the banner, the scorecard and the actions, and no error. *)
Theorem handler_displays_complete_answer
    (api_key model_choice p_name : string) (cost price : float)
    (biz_model platform text : string) (o sc : gmap string json)
    (verdict x : json) (xs : list json) :
  api_key <> "" ->
  invoke (model_router model_choice api_key)
         (mkPrompt (PyStr biz_model) (PyStr platform) (PyStr p_name)
                   (PyFloat price) (PyFloat cost) response_schemas)
    = Ok text ->
  parse_json_markdown text = Some (JObject o) ->
  o !! "verdict" = Some verdict ->
  o !! "action_plan" = Some (JArray (x :: xs)) ->
  o !! "scores" = Some (JObject sc) ->
  (forall key, key ∈ criteria ->
     exists e score insight,
       sc !! key = Some (JObject e)
       /\ e !! "score" = Some score /\ e !! "insight" = Some insight) ->
  exists ws,
    @on_start decoder backend evaly_dashboard true api_key model_choice p_name
              cost price biz_model platform
    = (@shown evaly_dashboard <$> ws)
    /\ head ws
       = Some (st_markdown (banner (verdict_color verdict) verdict x) true)
    /\ Forall2 (shown_for sc) criteria (omap metric_of ws)
    /\ omap bullet_of ws = x :: xs.
Proof.
  intros Hk Hi Hd Hv Hp Hs Hall.
  destruct (render_complete o sc verdict (JArray (x :: xs)) x (x :: xs))
    as (ws & Hr & Hh & Hm & Hb); try assumption; try reflexivity.
  exists ws. split; [|auto].
  rewrite (on_start_renders _ _ _ _ _ _ _ text o Hk Hi Hd)
    by (eexists; eassumption).
  rewrite Hr. cbn [fst snd]. apply app_nil_r.
Qed.

(** X25: the whole path of an incomplete answer: when the object the model
    sent has the three top-level keys but its [scores] lacks a criterion,
    the parser lets it through and the handler displays the banner, then an
    error and the advice to check the API key. *)
Theorem handler_displays_incomplete_answer
    (api_key model_choice p_name : string) (cost price : float)
    (biz_model platform text : string) (o sc : gmap string json)
    (verdict plan first_action : json) (key : string) :
  api_key <> "" ->
  invoke (model_router model_choice api_key)
         (mkPrompt (PyStr biz_model) (PyStr platform) (PyStr p_name)
                   (PyFloat price) (PyFloat cost) response_schemas)
    = Ok text ->
  parse_json_markdown text = Some (JObject o) ->
  o !! "verdict" = Some verdict ->
  o !! "action_plan" = Some plan ->
  json_first plan = Ok first_action ->
  o !! "scores" = Some (JObject sc) ->
  key ∈ criteria ->
  sc !! key = None ->
  exists ws e,
    @on_start decoder backend evaly_dashboard true api_key model_choice p_name
              cost price biz_model platform
    = ((@shown evaly_dashboard <$> ws)
       ++ [ st_error ("An error occurred: " +:+ exc_str e);
            st_warning
              "Make sure your API Key is correct and has access to the selected model." ])%list
    /\ head ws
       = Some (st_markdown
                 (banner (verdict_color verdict) verdict first_action) true)
    /\ omap bullet_of ws = [].
Proof.
  intros Hk Hi Hd Hv Hp Hf Hs Hin Hnone.
  destruct (display_stops_at_missing_criterion_aux o sc verdict plan
              first_action key Hv Hp Hf Hs Hin Hnone)
    as (ws & e & Hr & _ & Hh & Hb).
  exists ws, e. split; [|auto].
  rewrite (on_start_renders _ _ _ _ _ _ _ text o Hk Hi Hd)
    by (eexists; eassumption).
  rewrite Hr. reflexivity.
Qed.

End HandlerDisplay.

(** * [search_products] *)

Section SearchMore.
Context {world : Type} {SDK : ShopifySDK world} {builtins : PyBuiltins}.

(** X26: [search_products] hands the query and the limit to the SDK and
    returns one short dictionary for each product found, in the order of
    the SDK, with the price and the SKU of the first variant; as for
    [get_products], one product whose price cannot be converted empties the
    whole result. *)
Theorem search_products_result (st : state) (query : string) (limit : Z)
    (ps : list Product.t) :
  (Product_find_title query limit (sdk st)).1 = Ok ps ->
  ((forall p, p ∈ ps -> exists f, price_of (first_variant p) = Ok f) ->
   exists ds,
     (search_products query limit st).1 = Ok ds
     /\ length ds = length ps
     /\ forall i p, ps !! i = Some p ->
          exists d f,
            ds !! i = Some d
            /\ price_of (first_variant p) = Ok f
            /\ d !! "id" = Some (Product.id p)
            /\ d !! "name" = Some (Product.title p)
            /\ d !! "price" = Some (PyFloat f)
            /\ d !! "sku" = Some (match first_variant p with
                                  | Some v => Variant.sku v
                                  | None => PyStr ""
                                  end))
  /\ (forall p e, p ∈ ps -> price_of (first_variant p) = Raise e ->
      (search_products query limit st).1 = Ok []).
Proof.
  intros Hr. split.
  - intros Hall.
    assert (Hok : forall p, p ∈ ps -> exists d, search_data p = Ok d).
    { intros p Hp. destruct (Hall p Hp) as [f Hf]. unfold search_data.
      rewrite Hf. eexists; reflexivity. }
    destruct (for_each_ok _ _ Hok) as [ds Hds]. exists ds.
    destruct (for_each_lookup _ _ _ Hds) as [Hlen Hget].
    split; [|split; [exact Hlen|]].
    + unfold search_products.
      cbv [try_except mbind M_bind bind call mret M_ret ret print lift].
      destruct (Product_find_title query limit (sdk st)) as [r w].
      cbn in Hr. subst r. rewrite Hds. reflexivity.
    + intros i p Hi. destruct (Hget i p Hi) as (d & Hd & Hp).
      revert Hp. unfold search_data.
      destruct (price_of (first_variant p)) as [f|e]; [|discriminate].
      cbv [mbind result_bind rbind mret result_ret]. intros [= <-].
      eexists _, f. split; [exact Hd|]. split; [reflexivity|].
      repeat split;
        repeat first [ rewrite lookup_insert_eq
                     | rewrite lookup_insert_ne by discriminate ];
        reflexivity.
  - intros p e Hp He.
    assert (Hs : search_data p = Raise e).
    { unfold search_data. rewrite He. reflexivity. }
    destruct (for_each_raise _ _ _ _ Hp Hs) as [e' Hraise].
    unfold search_products.
    cbv [try_except mbind M_bind bind call mret M_ret ret print lift].
    destruct (Product_find_title query limit (sdk st)) as [r w].
    cbn in Hr. subst r. rewrite Hraise. reflexivity.
Qed.

End SearchMore.

(** * The further properties on examples *)


Lemma connect_false_prints_witness :
  session (self (@connect store demo_sdk offline_state).2) = Some demo_session.
Proof.
  destruct (@connect_false_prints store demo_sdk offline_state eq_refl)
    as (_ & Hkeep & _).
  apply (Hkeep demo_session offline_store). reflexivity.
Defined.

Lemma disconnect_idempotent_witness :
  session (self (@disconnect store demo_sdk connected_state).2) = None
  /\ @disconnect store demo_sdk (@disconnect store demo_sdk connected_state).2
     = (Ok tt, (@disconnect store demo_sdk connected_state).2)
  /\ @disconnect store demo_sdk online_state = (Ok tt, online_state).
Proof.
  destruct (@disconnect_idempotent store demo_sdk connected_state)
    as (_ & Hclear).
  destruct (Hclear online_store) as (_ & Hs & _ & _ & Hagain);
    [eexists; reflexivity|reflexivity|].
  split; [exact Hs|]. split; [exact Hagain|].
  apply (proj1 (@disconnect_idempotent store demo_sdk online_state)).
  reflexivity.
Defined.

Lemma disconnect_propagates_witness :
  (@disconnect store demo_sdk sticky_state).1
  = Raise (mkExc "RuntimeError" "no session").
Proof.
  apply (@disconnect_propagates store demo_sdk sticky_state
           (mkExc "RuntimeError" "no session") sticky_store);
    [eexists; reflexivity|reflexivity].
Defined.

Lemma test_connection_success_witness :
  @test_connection store demo_sdk demo_builtins "https://mystore" "tok"
     online_store []
  = (Ok (true, "✅ Connected to My Store"),
     mkState (mkConnector "mystore.myshopify.com" "tok" "2024-01" None)
             online_store []).
Proof.
  apply (@test_connection_success store demo_sdk demo_builtins
           "https://mystore" "tok" online_store [] demo_session demo_shop
           demo_shop online_store online_store online_store online_store
           online_store); reflexivity.
Defined.

Lemma test_connection_disconnect_failure_witness :
  (@test_connection store demo_sdk demo_builtins "mystore" "tok"
     sticky_store []).1
  = Ok (false, "❌ Connection error: no session").
Proof.
  apply (@test_connection_disconnect_failure store demo_sdk demo_builtins
           "mystore" "tok" sticky_store [] demo_session demo_shop
           (Ok demo_shop) (mkExc "RuntimeError" "no session")
           sticky_store sticky_store sticky_store sticky_store sticky_store);
    reflexivity.
Defined.

Lemma test_connection_without_shop_info_witness :
  (@test_connection store flaky_sdk demo_builtins "mystore" "tok"
     online_store []).1
  = Ok (true, "✅ Connection successful").
Proof.
  apply (@test_connection_without_shop_info store flaky_sdk demo_builtins
           "mystore" "tok" online_store [] demo_session demo_shop offline
           online_store online_store offline_store offline_store
           offline_store); reflexivity.
Defined.

Lemma get_products_all_or_nothing_witness :
  (@get_products store demo_sdk demo_builtins 50 unpriced_state).1 = Ok [].
Proof.
  apply (@get_products_all_or_nothing store demo_sdk demo_builtins
           unpriced_state 50%Z [demo_product; unpriced_product]
           unpriced_product
           (mkExc "TypeError"
              "float() argument must be a string or a real number, not 'NoneType'")).
  - reflexivity.
  - apply list_elem_of_In. simpl. right. left. reflexivity.
  - reflexivity.
Defined.

Lemma unpriced_product_is_not_found_witness :
  (@get_product_by_id store demo_sdk demo_builtins 44 unpriced_state).1
  = Ok None.
Proof.
  apply (@unpriced_product_is_not_found store demo_sdk demo_builtins
           unpriced_state 44%Z unpriced_product
           (Variant.mk PyNone PyNone (PyStr "") (PyInt 0)) []);
    reflexivity.
Defined.

Lemma get_products_keeps_order_witness :
  exists ds,
    (@get_products store demo_sdk demo_builtins 50 online_state).1 = Ok ds
    /\ length ds = 2%nat.
Proof.
  destruct (@get_products_keeps_order store demo_sdk demo_builtins
              online_state 50%Z [demo_product; bare_product] eq_refl)
    as (ds & Hds & Hlen & _).
  - intros p Hp. apply list_elem_of_In in Hp. simpl in Hp.
    destruct Hp as [<-|[<-|[]]]; eexists; reflexivity.
  - exists ds. split; [exact Hds|exact Hlen].
Defined.

Lemma dictionary_keys_witness :
  exists d,
    @search_data demo_builtins demo_product = Ok d /\ d !! "url" = None.
Proof.
  eexists. split; [reflexivity|].
  refine (proj1 (proj2 (proj2 (@dictionary_keys demo_builtins
                                 "mystore.myshopify.com" demo_product _)
                          eq_refl))).
Defined.

Lemma engine_init_needs_two_fields_witness :
  exists e,
    EvalyEngine_init (<["name" := PyStr "Belt"]> ∅) "sk-test" "OpenAI (GPT-4o)"
    = Raise e
    /\ exc_type e = "KeyError".
Proof.
  apply (proj2 (engine_init_needs_two_fields (<["name" := PyStr "Belt"]> ∅)
                  "sk-test" "OpenAI (GPT-4o)")).
  intros [[x Hx] _]. vm_compute in Hx. discriminate.
Defined.

Lemma analysis_needs_product_fields_witness :
  exists e,
    exc_type e = "KeyError"
    /\ @analyze_product mini_decoder answering_provider unpriced_input
         "sk-test" "OpenAI (GPT-4o)" = Raise e.
Proof.
  destruct (analysis_needs_product_fields unpriced_input "sk-test"
              "OpenAI (GPT-4o)") as (e & Hty & Hall).
  - eexists; reflexivity.
  - eexists; reflexivity.
  - right. left. reflexivity.
  - exists e. split; [exact Hty|]. apply Hall.
Defined.

Lemma evaluate_end_to_end_witness :
  @analyze_product mini_decoder answering_provider demo_input "sk-test"
    "Anthropic (Claude 3.5 Sonnet)"
  = Ok (JObject full_object).
Proof.
  destruct (@evaluate_end_to_end mini_decoder answering_provider demo_input
              "sk-test" "Anthropic (Claude 3.5 Sonnet)"
              (PyStr "Private Label") (PyStr "Shopify")
              (PyStr "Red Light Therapy Belt") (PyFloat 129) (PyFloat 28)
              full_answer eq_refl eq_refl eq_refl eq_refl eq_refl eq_refl)
    as (Hok & _).
  apply Hok; [vm_compute; reflexivity| | | ]; eexists; reflexivity.
Defined.

Lemma handler_blames_key_for_bad_answer_witness :
  exists e,
    exc_type e = "OutputParserException"
    /\ @on_start mini_decoder garbled_provider demo_dashboard true "sk-test"
         "OpenAI (GPT-4o)" "Red Light Therapy Belt" 28 129 "Private Label"
         "Shopify"
       = [ st_error ("An error occurred: " +:+ exc_str e);
           st_warning
             "Make sure your API Key is correct and has access to the selected model." ].
Proof.
  apply (@handler_blames_key_for_bad_answer mini_decoder garbled_provider
           demo_dashboard "sk-test" "OpenAI (GPT-4o)"
           "Red Light Therapy Belt" 28%float 129%float "Private Label"
           "Shopify" "I cannot answer that.");
    [discriminate|reflexivity|vm_compute; reflexivity].
Defined.

(** The nine entries of [full_scores]. *)
Lemma full_scores_complete (key : string) :
  key ∈ criteria ->
  exists e score insight,
    full_scores !! key = Some (JObject e)
    /\ e !! "score" = Some score /\ e !! "insight" = Some insight.
Proof.
  unfold criteria. rewrite !elem_of_cons.
  intros [->|[->|[->|[->|[->|[->|[->|[->|[->|H]]]]]]]]];
    [| | | | | | | | |inversion H];
    eexists _, _, _; (split; [vm_compute; reflexivity|]);
    split; vm_compute; reflexivity.
Defined.


Lemma display_of_empty_action_plan_witness :
  exists e,
    @render evaly_dashboard
      (JObject (<["action_plan" := JArray []]> full_object)) = ([], Some e)
    /\ exc_type e = "IndexError".
Proof.
  apply (display_of_empty_action_plan
           (<["action_plan" := JArray []]> full_object) (JString "GO")
           (JObject full_scores) (JArray []));
    [vm_compute; reflexivity ..|left; reflexivity].
Defined.

Lemma display_stops_at_missing_criterion_witness :
  exists ws e,
    @render evaly_dashboard (JObject thin_object) = (ws, Some e)
    /\ (exc_type e = "KeyError" \/ exc_type e = "TypeError").
Proof.
  destruct (display_stops_at_missing_criterion thin_object ∅ (JString "GO")
              (JString "ship it") (JString "s") "margin")
    as (ws & e & Hr & Hty & _);
    [reflexivity|reflexivity|reflexivity|reflexivity| |reflexivity|].
  - unfold criteria. rewrite !elem_of_cons. left. reflexivity.
  - exists ws, e. split; [exact Hr|exact Hty].
Defined.

Lemma display_of_string_action_plan_witness :
  exists ws,
    @render evaly_dashboard (JObject string_plan_object) = (ws, None)
    /\ omap bullet_of ws = [JString "g"; JString "o"].
Proof.
  destruct (display_of_string_action_plan string_plan_object full_scores
              (JString "FIX") "go" "g" ["o"]
              eq_refl eq_refl eq_refl eq_refl full_scores_complete)
    as (ws & Hr & _ & Hb).
  exists ws. split; [exact Hr|exact Hb].
Defined.

Lemma handler_displays_complete_answer_witness :
  exists ws,
    @on_start mini_decoder answering_provider evaly_dashboard true "sk-test"
      "OpenAI (GPT-4o)" "Red Light Therapy Belt" 28 129 "Private Label"
      "Shopify"
    = (@shown evaly_dashboard <$> ws)
    /\ omap bullet_of ws = full_actions.
Proof.
  destruct (@handler_displays_complete_answer mini_decoder answering_provider
              "sk-test" "OpenAI (GPT-4o)" "Red Light Therapy Belt"
              28%float 129%float "Private Label" "Shopify" full_answer
              full_object full_scores (JString "GO") (JString "Order samples")
              [JString "Shoot a demo"; JString "Launch ads"])
    as (ws & Hs & _ & _ & Hb);
    [discriminate|reflexivity|vm_compute; reflexivity|reflexivity
    |reflexivity|reflexivity|exact full_scores_complete|].
  exists ws. split; [exact Hs|exact Hb].
Defined.

Lemma handler_displays_incomplete_answer_witness :
  exists ws e,
    @on_start mini_decoder demo_provider evaly_dashboard true "sk-test"
      "OpenAI (GPT-4o)" "Red Light Therapy Belt" 28 129 "Private Label"
      "Shopify"
    = ((@shown evaly_dashboard <$> ws)
       ++ [ st_error ("An error occurred: " +:+ exc_str e);
            st_warning
              "Make sure your API Key is correct and has access to the selected model." ])%list.
Proof.
  destruct (@handler_displays_incomplete_answer mini_decoder demo_provider
              "sk-test" "OpenAI (GPT-4o)" "Red Light Therapy Belt"
              28%float 129%float "Private Label" "Shopify" thin_answer
              thin_object ∅ (JString "GO") (JString "ship it") (JString "s")
              "margin")
    as (ws & e & Hs & _);
    [discriminate|reflexivity|vm_compute; reflexivity|reflexivity
    |reflexivity|reflexivity|reflexivity| |reflexivity|].
  - unfold criteria. rewrite !elem_of_cons. left. reflexivity.
  - exists ws, e. exact Hs.
Defined.

Lemma search_products_result_witness :
  exists ds,
    (@search_products store demo_sdk demo_builtins "Draft" 20 online_state).1
    = Ok ds
    /\ length ds = 1%nat.
Proof.
  destruct (@search_products_result store demo_sdk demo_builtins online_state
              "Draft" 20%Z [bare_product] eq_refl) as (Hall & _).
  destruct Hall as (ds & Hds & Hlen & _).
  - intros p Hp. apply list_elem_of_In in Hp. simpl in Hp.
    destruct Hp as [<-|[]]. eexists; reflexivity.
  - exists ds. split; [exact Hds|exact Hlen].
Defined.
